(** * Pre-setup database discovery (pre-setup.discovery.util.ts)

    A shallow embedding of the discovery utilities of RedisInsight's API:
    [scanProcessEnv], [populateDefaultValues], [getCertificateData],
    [prepareDatabaseFromEnvs], [discoverEnvDatabasesToAdd],
    [prepareDatabaseFromFile] and [discoverFileDatabasesToAdd], followed by
    the properties of the specification that were checked against them.

    JavaScript objects are finite maps from property names to values; the
    difference between an absent property and the value [undefined], and
    between [undefined] and [null], is kept, because destructuring defaults
    only fire on [undefined]. *)

From stdpp Require Import gmap strings list fin_maps pretty.
From Stdlib Require Import Ascii ZArith Lia.

Local Open Scope Z_scope.

(** ** JavaScript values *)

(** A number is written as the integer it denotes, [NaN], or an infinity:
    every number the module computes with is a port, a database index or
    the result of [parseInt], which is an integer-valued double, [NaN],
    [Infinity] or [-Infinity]. Fractions are not part of the model. *)
Inductive number : Type :=
  | Finite (n : Z)
  | NotANumber
  | Infinite (negative : bool).

#[warnings="-register-all"]
Inductive value : Type :=
  | VUndefined
  | VNull
  | VBool (b : bool)
  | VNum (n : Z)
  | VNaN
  | VInfinity (negative : bool)
  | VStr (s : string)
  | VArr (l : list value)
  | VObj (o : gmap string value).

Definition VNumber (x : number) : value :=
  match x with
  | Finite n => VNum n
  | NotANumber => VNaN
  | Infinite negative => VInfinity negative
  end.

Abbreviation obj := (gmap string value).

(** ToBoolean, as used by [&&], [||], [if] and [!!]. *)
Definition truthy (v : value) : bool :=
  match v with
  | VUndefined | VNull | VNaN => false
  | VBool b => b
  | VNum n => negb (n =? 0)
  | VInfinity _ => true
  | VStr s => negb (String.eqb s "")
  | VArr _ | VObj _ => true
  end.

(** [a || b] *)
Definition js_or (a b : value) : value := if truthy a then a else b.

(** Property read [o.k] on an object: [undefined] when there is no such
    property. *)
Definition prop (o : obj) (k : string) : value := default VUndefined (o !! k).

(** A destructuring default [{ k = d } = o]: the default replaces
    [undefined] only. *)
Definition dflt (v d : value) : value :=
  match v with VUndefined => d | _ => v end.

(** The own enumerable properties of a value, which is what a spread
    [{...v}] copies: the properties of an object, the indexed elements of an
    array or of a string, nothing for the other primitives. *)
Definition indexed (l : list value) : obj :=
  list_to_map (imap (fun i x => (pretty (Z.of_nat i), x)) l).

Fixpoint chars (s : string) : list value :=
  match s with
  | EmptyString => []
  | String c s' => VStr (String c EmptyString) :: chars s'
  end.

Definition ownProps (v : value) : obj :=
  match v with
  | VObj o => o
  | VArr l => indexed l
  | VStr s => indexed (chars s)
  | _ => ∅
  end.

(** An object literal [{ ...base, k1: v1, ..., kn: vn }]: the properties are
    written in order on top of the spread. *)
Definition literal (base : obj) (props : list (string * value)) : obj :=
  foldl (fun o kv => <[kv.1 := kv.2]> o) base props.

(** Two partial definitions that carry no [id]: one with a CA certificate,
    one with a client certificate. *)
Definition unidentified_with_ca : obj :=
  literal ∅ [("host", VStr "h");
             ("caCert", VObj (literal ∅ [("certificate", VStr "c")]))].

Definition unidentified_with_client : obj :=
  literal ∅ [("host", VStr "h");
             ("clientCert", VObj (literal ∅ [("certificate", VStr "c");
                                             ("key", VStr "k")]))].

(** ** Results of fallible steps and the effect monad *)

(** What the validation library reports for one property. *)
Record ValidationError : Type := {
  property : string;
  constraints : list (string * string)
}.

(** A thrown value: the array of [ValidationError] objects with which
    [validateOrReject] rejects, or any other error. [Array.isArray] tells
    them apart. *)
Inductive exn : Type :=
  | ValidationErrors (errs : list ValidationError)
  | Error (msg : string).

Definition isArray (e : exn) : bool :=
  match e with ValidationErrors _ => true | Error _ => false end.

(** The elements of a thrown array. *)
Definition elements_of (e : exn) : list ValidationError :=
  match e with ValidationErrors errs => errs | Error _ => [] end.

Inductive result (A : Type) : Type :=
  | Ok (a : A)
  | Throw (e : exn).
Arguments Ok {A} a.
Arguments Throw {A} e.

(** ** The built-ins the module calls *)

(** [s.replace(/^p/, '')] *)
Fixpoint strip_prefix (p s : string) : option string :=
  match p, s with
  | EmptyString, _ => Some s
  | String a p', String b s' =>
      if Ascii.eqb a b then strip_prefix p' s' else None
  | String _ _, EmptyString => None
  end.

Definition replace_prefix (p s : string) : string :=
  default s (strip_prefix p s).

(** [v === s] for a string literal [s]. *)
Definition strict_eq_str (v : value) (s : string) : bool :=
  match v with VStr s' => String.eqb s' s | _ => false end.

(** ** Reading a property of an object literal *)

(** The binding of [k] after writing [props] in order over a base whose
    binding is [acc]: the last write wins. *)
Fixpoint written (k : string) (props : list (string * value))
    (acc : option value) : option value :=
  match props with
  | [] => acc
  | (k', v) :: props' =>
      written k props' (if String.eqb k' k then Some v else acc)
  end.

(** The names [populateDefaultValues] writes. *)
Definition written_names : list string :=
  ["id"; "host"; "port"; "db"; "provider"; "modules"; "verifyServerCert";
   "ssh"; "sshOptions"; "tls"; "tlsServername"; "caCert"; "clientCert";
   "nameFromProvider"; "username"; "password"; "compressor"; "name";
   "connectionType"; "isPreSetup"].

(** ** The platform *)

(** What the module takes from its surroundings: the two enum members it
    names and the members of the compressor enum (the enums are declared in
    database.entity), the identifier generator behind [uuidv4()] as a
    state, the snapshot it reads ([process.env], and the file system through
    [readFile] and [pathExists] of fs-extra), the built-ins
    [Buffer.from(s, 'base64').toString()], [JSON.parse] and [parseInt(s, 10)]
    on a string, the text of a number that is not a safe integer, and the
    validator. [validate d] stands for
    [validator.validateOrReject(plainToClass(Database, d, ...))]: it
    resolves, or rejects with the array of violations, or fails with some
    other error. *)
Class Platform : Type := {
  Compressor_NONE : string;
  Compressor_members : list string;
  ConnectionType_NOT_CONNECTED : string;
  Generator : Type;
  uuidv4 : Generator -> string * Generator;
  env : gmap string string;
  readFile : string -> result string;
  pathExists : string -> bool;
  base64_decode : string -> result string;
  JSON_parse : string -> result value;
  parseInt10 : string -> number;
  Number_toString : Z -> string;
  validate : obj -> result unit
}.

(** ** The module *)

Section Discovery.

Context {platform : Platform}.

(** A computation threads the generator and returns or throws. Calls to
    the logger and to the console leave no trace in a result and are
    left out. *)
Definition M (A : Type) : Type := Generator -> result A * Generator.

Definition ret {A} (a : A) : M A := fun g => (Ok a, g).

Definition throw {A} (e : exn) : M A := fun g => (Throw e, g).

Definition bind {A B} (m : M A) (k : A -> M B) : M B :=
  fun g =>
    match m g with
    | (Ok a, g') => k a g'
    | (Throw e, g') => (Throw e, g')
    end.

Definition lift {A} (r : result A) : M A := fun g => (r, g).

(** [try { m } catch (e) { h e }] *)
Definition try_catch {A} (m : M A) (h : exn -> M A) : M A :=
  fun g =>
    match m g with
    | (Ok a, g') => (Ok a, g')
    | (Throw e, g') => h e g'
    end.

(** [await Promise.all(ps)] over promises created in list order: every
    computation runs; the outcome is the list of results, or the first
    rejection. *)
Fixpoint promise_all {A} (ps : list (M A)) : M (list A) :=
  match ps with
  | [] => ret []
  | p :: ps' =>
      fun g =>
        match p g with
        | (Ok a, g1) =>
            match promise_all ps' g1 with
            | (Ok l, g2) => (Ok (a :: l), g2)
            | (Throw e, g2) => (Throw e, g2)
            end
        | (Throw e, g1) => (Throw e, (promise_all ps' g1).2)
        end
  end.

Notation "'do' x <- m ; k" := (bind m (fun x => k))
  (at level 10, x name, m at level 100, k at level 200).

(** ToString, as applied by a template literal [`${v}`]. A safe integer
    (below 2^53 = 9007199254740992 in magnitude) is printed with all its
    digits; a larger one is printed by the platform, which shortens it to
    the digits that identify the double and writes an exponent from 10^21
    on. An object is taken to inherit [toString] from [Object.prototype],
    as the objects of a connection definition do. *)
Fixpoint to_string (v : value) : string :=
  match v with
  | VUndefined => "undefined"
  | VNull => "null"
  | VBool true => "true"
  | VBool false => "false"
  | VNum n => if Z.abs n <? 9007199254740992 then pretty n else Number_toString n
  | VNaN => "NaN"
  | VInfinity false => "Infinity"
  | VInfinity true => "-Infinity"
  | VStr s => s
  | VArr l =>
      String.concat ","
        (List.map (fun x => match x with
                            | VUndefined | VNull => ""
                            | _ => to_string x
                            end) l)
  | VObj _ => "[object Object]"
  end.

(** [parseInt(v, 10)] first converts its argument to a string. The
    argument here is a variable of the environment: a string, or
    [undefined], whose text ["undefined"] holds no digit. *)
Definition parseInt (v : value) : value :=
  match v with
  | VUndefined => VNaN
  | _ => VNumber (parseInt10 (to_string v))
  end.

(** [process.env[k]] *)
Definition getenv (k : string) : value :=
  match env !! k with Some s => VStr s | None => VUndefined end.

Definition scanProcessEnv : list string :=
  List.filter
    (fun k => String.prefix "RI_REDIS_HOST" k && truthy (getenv k))
    (List.map fst (map_to_list env)).

Definition populateDefaultValues (database : obj) : M obj :=
  do id <- match prop database "id" with
           | VUndefined => fun g => let '(u, g') := uuidv4 g in (Ok (VStr u), g')
           | v => ret v
           end;
  let host := prop database "host" in
  let port := dflt (prop database "port") (VNum 6379) in
  let name := dflt (prop database "name")
                   (VStr (to_string host +:+ ":" +:+ to_string port)) in
  let db := dflt (prop database "db") VNull in
  let provider := dflt (prop database "provider") VNull in
  let modules := dflt (prop database "modules") (VArr []) in
  let verifyServerCert := dflt (prop database "verifyServerCert") VNull in
  let ssh := dflt (prop database "ssh") VNull in
  let sshOptions := dflt (prop database "sshOptions") VNull in
  let tls := dflt (prop database "tls") (VBool false) in
  let tlsServername := dflt (prop database "tlsServername") VNull in
  let caCert := dflt (prop database "caCert") VNull in
  let clientCert := dflt (prop database "clientCert") VNull in
  let nameFromProvider := dflt (prop database "nameFromProvider") VNull in
  let username := dflt (prop database "username") VNull in
  let password := dflt (prop database "password") VNull in
  let compressor := dflt (prop database "compressor") (VStr Compressor_NONE) in
  ret (literal database [
    ("id", id);
    ("host", host);
    ("port", port);
    ("db", db);
    ("provider", provider);
    ("modules", modules);
    ("verifyServerCert", verifyServerCert);
    ("ssh", ssh);
    ("sshOptions", sshOptions);
    ("tls", tls);
    ("tlsServername", tlsServername);
    ("caCert",
      if truthy caCert then
        VObj (literal (ownProps caCert) [
          ("id", prop database "id");
          ("name", VStr (to_string (prop database "id") +:+ "_" +:+ to_string name));
          ("isPreSetup", VBool true)])
      else caCert);
    ("clientCert",
      if truthy clientCert then
        VObj (literal (ownProps clientCert) [
          ("id", prop database "id");
          ("name", VStr (to_string (prop database "id") +:+ "_" +:+ to_string name));
          ("isPreSetup", VBool true)])
      else clientCert);
    ("nameFromProvider", nameFromProvider);
    ("username", username);
    ("password", password);
    ("compressor", compressor);
    ("name", name);
    ("connectionType", VStr ConnectionType_NOT_CONNECTED);
    ("isPreSetup", VBool true)]).

Definition getCertificateData (envPrefix id : string) : M value :=
  do returned <-
    try_catch
      (let base64 := js_or (getenv (envPrefix +:+ "_BASE64" +:+ id)) (VStr "") in
       if truthy base64 then
         do s <- lift (base64_decode (to_string base64));
         ret (Some (VStr s))
       else
         let path := js_or (getenv (envPrefix +:+ "_PATH" +:+ id)) (VStr "") in
         if truthy path then
           do s <- lift (readFile (to_string path));
           ret (Some (VStr s))
         else ret None)
      (fun error => ret None);
  match returned with
  | Some v => ret v
  | None => ret VNull
  end.

Definition prepareDatabaseFromEnvs (hostEnv : string) : M (option obj) :=
  try_catch
    (let id := replace_prefix "RI_REDIS_HOST" hostEnv in
     let databaseToAdd : obj := literal ∅ [
       ("id", js_or (VStr id) (VStr "0"));
       ("host", getenv hostEnv);
       ("port", js_or (parseInt (getenv ("RI_REDIS_PORT" +:+ id))) (VNum 6379));
       ("db", js_or (parseInt (getenv ("RI_REDIS_DB" +:+ id))) (VNum 0));
       ("name", getenv ("RI_REDIS_ALIAS" +:+ id));
       ("username", getenv ("RI_REDIS_USERNAME" +:+ id));
       ("password", getenv ("RI_REDIS_PASSWORD" +:+ id));
       ("tls", VBool (strict_eq_str (getenv ("RI_REDIS_TLS" +:+ id)) "true"));
       ("compressor", getenv ("RI_REDIS_COMPRESSOR" +:+ id))] in
     do tlsCA <- getCertificateData "RI_REDIS_TLS_CA" id;
     let databaseToAdd :=
       if truthy tlsCA then
         <["caCert" := VObj (literal ∅ [("certificate", tlsCA)])]> databaseToAdd
       else databaseToAdd in
     do tlsCertificate <- getCertificateData "RI_REDIS_TLS_CERT" id;
     do tlsKey <- getCertificateData "RI_REDIS_TLS_KEY" id;
     let databaseToAdd :=
       if truthy tlsCertificate && truthy tlsKey then
         <["verifyServerCert" := VBool true]>
           (<["clientCert" := VObj (literal ∅ [("certificate", tlsCertificate);
                                                ("key", tlsKey)])]> databaseToAdd)
       else databaseToAdd in
     do preparedDatabase <- populateDefaultValues databaseToAdd;
     do _ <- lift (validate preparedDatabase);
     ret (Some preparedDatabase))
    (fun e =>
       if isArray e then
         let printed := List.map constraints (elements_of e) in
         ret None
       else ret None).

Definition discoverEnvDatabasesToAdd : M (list obj) :=
  try_catch
    (let hostEnvs := scanProcessEnv in
     do prepared <- promise_all (List.map prepareDatabaseFromEnvs hostEnvs);
     let discoveredDatabases := omap (fun v => v) prepared in
     ret discoveredDatabases)
    (fun e => ret []).

(** The elements of the parsed file are whatever the JSON holds.
    Destructuring [null] or [undefined] throws a TypeError; for any other
    value the properties read are the named ones and the spread copies
    its own enumerable properties. *)
Definition prepareDatabaseFromFile (database : value) : M (option obj) :=
  try_catch
    (do databaseToAdd <-
       match database with
       | VUndefined | VNull => throw (Error "TypeError: cannot destructure")
       | _ => populateDefaultValues (ownProps database)
       end;
     do _ <- lift (validate databaseToAdd);
     ret (Some databaseToAdd))
    (fun error => ret None).

Definition discoverFileDatabasesToAdd (path : string) : M (list obj) :=
  do returned <-
    try_catch
      (if pathExists path then
         do text <- lift (readFile path);
         do fileData <- lift (JSON_parse text);
         match fileData with
         | VArr elements =>
             do prepared <- promise_all (List.map prepareDatabaseFromFile elements);
             ret (Some (omap (fun v => v) prepared))
         | _ => throw (Error "TypeError: fileData.map is not a function")
         end
       else ret None)
      (fun error => ret None);
  match returned with
  | Some databases => ret databases
  | None => ret []
  end.

(** ** Auxiliary definitions *)

(** The certificate the normalizer writes for a certificate [cert] of the
    input (after its [null] default), under the result name [name]. *)
Definition stamped (database : obj) (name cert : value) : value :=
  if truthy cert then
    VObj (literal (ownProps cert) [
      ("id", prop database "id");
      ("name", VStr (to_string (prop database "id") +:+ "_" +:+ to_string name));
      ("isPreSetup", VBool true)])
  else cert.

(** The result of the normalizer, field by field. *)
Definition normalizes (database : obj) (g : Generator) (out : obj)
    (g' : Generator) : Prop :=
  (prop out "id", g') =
    match prop database "id" with
    | VUndefined => (VStr (uuidv4 g).1, (uuidv4 g).2)
    | v => (v, g)
    end /\
  prop out "host" = prop database "host" /\
  prop out "port" = dflt (prop database "port") (VNum 6379) /\
  prop out "name" =
    dflt (prop database "name")
         (VStr (to_string (prop out "host") +:+ ":" +:+ to_string (prop out "port"))) /\
  prop out "db" = dflt (prop database "db") VNull /\
  prop out "provider" = dflt (prop database "provider") VNull /\
  prop out "modules" = dflt (prop database "modules") (VArr []) /\
  prop out "verifyServerCert" = dflt (prop database "verifyServerCert") VNull /\
  prop out "ssh" = dflt (prop database "ssh") VNull /\
  prop out "sshOptions" = dflt (prop database "sshOptions") VNull /\
  prop out "tls" = dflt (prop database "tls") (VBool false) /\
  prop out "tlsServername" = dflt (prop database "tlsServername") VNull /\
  prop out "caCert" =
    stamped database (prop out "name") (dflt (prop database "caCert") VNull) /\
  prop out "clientCert" =
    stamped database (prop out "name") (dflt (prop database "clientCert") VNull) /\
  prop out "nameFromProvider" = dflt (prop database "nameFromProvider") VNull /\
  prop out "username" = dflt (prop database "username") VNull /\
  prop out "password" = dflt (prop database "password") VNull /\
  prop out "compressor" = dflt (prop database "compressor") (VStr Compressor_NONE) /\
  prop out "connectionType" = VStr ConnectionType_NOT_CONNECTED /\
  prop out "isPreSetup" = VBool true /\
  (forall k, k ∉ written_names -> out !! k = database !! k) /\
  (forall k, k ∈ written_names -> is_Some (out !! k)).

(** The default table of the normalizer, for a result whose host and port
    are [host] and [port]. *)
Definition default_table (host port : value) : list (string * value) :=
  [("port", VNum 6379);
   ("name", VStr (to_string host +:+ ":" +:+ to_string port));
   ("db", VNull);
   ("provider", VNull);
   ("modules", VArr []);
   ("verifyServerCert", VNull);
   ("ssh", VNull);
   ("sshOptions", VNull);
   ("tls", VBool false);
   ("tlsServername", VNull);
   ("nameFromProvider", VNull);
   ("username", VNull);
   ("password", VNull);
   ("compressor", VStr Compressor_NONE)].

(** The value a variable of the environment is set to. A variable set to
    the empty string counts as not set: that is how [process.env[k] || '']
    followed by a truth test reads it. *)
Definition setting (k : string) : option string :=
  match env !! k with
  | Some s => if String.eqb s "" then None else Some s
  | None => None
  end.

(** The resolution order in the words of the specification: the inline
    base64 value when there is one, else the file behind the path when
    there is one, else nothing; a decoding or reading failure is nothing
    as well. *)
Definition resolveCertificate (envPrefix id : string) : value :=
  match setting (envPrefix +:+ "_BASE64" +:+ id) with
  | Some base64 =>
      match base64_decode base64 with
      | Ok s => VStr s
      | Throw _ => VNull
      end
  | None =>
      match setting (envPrefix +:+ "_PATH" +:+ id) with
      | Some path =>
          match readFile path with
          | Ok s => VStr s
          | Throw _ => VNull
          end
      | None => VNull
      end
  end.

(** The identifier of a host key: what follows the marker, or ["0"]. *)
Definition host_id (hostEnv : string) : string :=
  let id := replace_prefix "RI_REDIS_HOST" hostEnv in
  if String.eqb id "" then "0" else id.

(** A resolved secret is present when it is a text that is not empty:
    [null] and the empty text are both absent to the test
    [tlsCertificate && tlsKey]. *)
Definition present (v : value) : bool := truthy v.

(** What one preparation contributes to the collection. *)
Definition contribution (r : result (option obj)) : option obj :=
  match r with Ok o => o | Throw _ => None end.

(** The generator after the preparation of one element of the file: the
    normalizer is the only step that draws from it, and it does so before
    the validator is asked. *)
Definition generator_after (e : value) (g : Generator) : Generator :=
  match e with
  | VUndefined | VNull => g
  | _ => (populateDefaultValues (ownProps e) g).2
  end.

(** The generator when the element at position [i] is prepared. *)
Definition generator_at (elements : list value) (i : nat) (g : Generator) :
    Generator :=
  foldl (fun g e => generator_after e g) g (take i elements).

(** The elements of the file, when it exists, can be read and holds a JSON
    array. *)
Definition fileElements (path : string) : option (list value) :=
  if pathExists path then
    match readFile path with
    | Ok text =>
        match JSON_parse text with
        | Ok (VArr elements) => Some elements
        | _ => None
        end
    | Throw _ => None
    end
  else None.

(** The preparations of the elements, one after the other. *)
Fixpoint in_turn (elements : list value) (g : Generator) :
    list (option obj) * Generator :=
  match elements with
  | [] => ([], g)
  | e :: rest =>
      let '(rs, g') := in_turn rest (generator_after e g) in
      (contribution (prepareDatabaseFromFile e g).1 :: rs, g')
  end.


End Discovery.

(** ** Concrete runs *)

(** What a run returned, seen through [f]; nothing when it threw. *)
Definition observe {A B S} (f : A -> B) (r : result A * S) : option B :=
  match r.1 with
  | Ok a => Some (f a)
  | Throw _ => None
  end.

(** The same for a preparation, which may return [null]. *)
Definition observe_prepared {B S} (f : obj -> B) (r : result (option obj) * S) :
    option B :=
  match r.1 with
  | Ok (Some d) => Some (f d)
  | _ => None
  end.

Module Sample.

(** A generator that numbers the identifiers it hands out. *)
Definition uuid (g : nat) : string * nat :=
  ("generated-" +:+ pretty (Z.of_nat g), S g).

(** *** The built-ins of the runs *)

(** The double nearest to an integer, ties to the even significand;
    [Infinity] from 2^1024 on. *)
Definition round_double (n : Z) : number :=
  let m := Z.abs n in
  if m <? 2 ^ 53 then Finite n
  else
    let e := Z.log2 m - 52 in
    let q := m / 2 ^ e in
    let r := m mod 2 ^ e in
    let half := 2 ^ (e - 1) in
    let q' := if r <? half then q
              else if half <? r then q + 1
              else if Z.even q then q else q + 1 in
    let v := q' * 2 ^ e in
    if 2 ^ 1024 <=? v then Infinite (n <? 0) else Finite (Z.sgn n * v).

(** White space as [parseInt] skips it, in the UTF-8 encoding of the
    strings of the environment: tab to carriage return, space, U+00A0,
    U+1680, U+2000 to U+200A, U+2028, U+2029, U+202F, U+205F, U+3000 and
    U+FEFF. *)
Definition is_space (c : ascii) : bool :=
  let n := nat_of_ascii c in
  ((9 <=? n) && (n <=? 13) || (n =? 32))%nat.

Definition is_space2 (a b : ascii) : bool :=
  ((nat_of_ascii a =? 194) && (nat_of_ascii b =? 160))%nat.

Definition is_space3 (a b c : ascii) : bool :=
  let '(a, b, c) := (nat_of_ascii a, nat_of_ascii b, nat_of_ascii c) in
  ((a =? 225) && (b =? 154) && (c =? 128)
   || (a =? 226) && (b =? 128)
      && ((128 <=? c) && (c <=? 138) || (c =? 168) || (c =? 169) || (c =? 175))
   || (a =? 226) && (b =? 129) && (c =? 159)
   || (a =? 227) && (b =? 128) && (c =? 128)
   || (a =? 239) && (b =? 187) && (c =? 191))%nat.

Fixpoint skip_spaces (s : string) : string :=
  match s with
  | String a s1 =>
      if is_space a then skip_spaces s1
      else
        match s1 with
        | String b s2 =>
            if is_space2 a b then skip_spaces s2
            else
              match s2 with
              | String c s3 => if is_space3 a b c then skip_spaces s3 else s
              | EmptyString => s
              end
        | EmptyString => s
        end
  | EmptyString => s
  end.

Definition digit_val (c : ascii) : option Z :=
  let n := nat_of_ascii c in
  if ((48 <=? n) && (n <=? 57))%nat then Some (Z.of_nat n - 48) else None.

Fixpoint digits (s : string) (acc : option Z) : option Z :=
  match s with
  | String c s' =>
      match digit_val c with
      | Some d => digits s' (Some (10 * default 0 acc + d))
      | None => acc
      end
  | EmptyString => acc
  end.

(** [parseInt(s, 10)]: leading white space is skipped, an optional sign is
    read, then the longest run of decimal digits, whose value is rounded
    to a double; no digit gives [NaN]. *)
Definition parseInt10 (s : string) : number :=
  let s := skip_spaces s in
  let '(neg, s) :=
    match s with
    | String "-" s' => (true, s')
    | String "+" s' => (false, s')
    | _ => (false, s)
    end in
  match digits s None with
  | Some n => round_double (if neg then - n else n)
  | None => NotANumber
  end.

(** The text of an integer-valued double: the fewest digits [s] that read
    back as the same double, followed by zeros up to 21 digits and by an
    exponent beyond. *)
Definition reads_as (m candidate : Z) : bool :=
  match round_double candidate with
  | Finite v => v =? m
  | _ => false
  end.

Fixpoint shortest (m len : Z) (ks : list Z) : Z * Z :=
  match ks with
  | [] => (m, len)
  | k :: ks' =>
      let p := 10 ^ (len - k) in
      let lo := m / p in
      let hi := lo + 1 in
      let fits s := (10 ^ (k - 1) <=? s) && (s <? 10 ^ k) && reads_as m (s * p) in
      match fits lo, fits hi with
      | true, true =>
          if m - lo * p <? hi * p - m then (lo, k)
          else if hi * p - m <? m - lo * p then (hi, k)
          else if Z.even lo then (lo, k) else (hi, k)
      | true, false => (lo, k)
      | false, true => (hi, k)
      | false, false => shortest m len ks'
      end
  end.

Fixpoint zeros (n : nat) : string :=
  match n with
  | O => ""
  | S n' => "0" +:+ zeros n'
  end.

Definition Number_toString (n : Z) : string :=
  let m := Z.abs n in
  let sign := if n <? 0 then "-" else "" in
  let len := Z.of_nat (String.length (pretty m)) in
  let '(s, k, len) :=
    if reads_as m (10 ^ len) then (1, 1, len + 1)
    else
      let '(s, k) := shortest m len (List.map Z.of_nat (seq 1 (Z.to_nat len))) in
      (s, k, len) in
  let text := pretty s in
  if m =? 0 then "0"
  else if len <=? 21 then sign +:+ text +:+ zeros (Z.to_nat (len - k))
  else
    match text with
    | String d EmptyString =>
        sign +:+ String d EmptyString +:+ "e+" +:+ pretty (len - 1)
    | String d rest =>
        sign +:+ String d EmptyString +:+ "." +:+ rest +:+ "e+" +:+ pretty (len - 1)
    | EmptyString => sign
    end.

(** [Buffer.from(s, 'base64').toString()]: the characters of the base64
    alphabet (the URL-safe one too) are read six bits at a time and every
    other character is passed over, so the decoder never throws. The bytes
    are the text: decoded bytes that are not UTF-8, which [toString] would
    replace by U+FFFD, do not occur in these runs. *)
Definition sextet (c : ascii) : option N :=
  let n := N_of_ascii c in
  (if (65 <=? n) && (n <=? 90) then Some (n - 65)
   else if (97 <=? n) && (n <=? 122) then Some (n - 71)
   else if (48 <=? n) && (n <=? 57) then Some (n + 4)
   else if (n =? 43) || (n =? 45) then Some 62
   else if (n =? 47) || (n =? 95) then Some 63
   else None)%N.

Fixpoint sextets (s : string) : list N :=
  match s with
  | EmptyString => []
  | String c s' =>
      match sextet c with
      | Some x => x :: sextets s'
      | None => sextets s'
      end
  end.

Fixpoint octets (l : list N) : list N :=
  (match l with
   | a :: b :: c :: d :: rest =>
       (a * 4 + b / 16) :: ((b mod 16) * 16 + c / 4) :: ((c mod 4) * 64 + d)
         :: octets rest
   | [a; b; c] => [a * 4 + b / 16; (b mod 16) * 16 + c / 4]
   | [a; b] => [a * 4 + b / 16]
   | _ => []
   end)%N.

Definition text_of (bytes : list N) : string :=
  foldr (fun b s => String (ascii_of_N b) s) EmptyString bytes.

Definition decode (base64 : string) : result string :=
  Ok (text_of (octets (sextets base64))).

(** Two secrets and a list of databases on disk. The list is the JSON text
    [[{"host":"a"},{"port":1},null]]. *)
Definition quoted (s : string) : string :=
  String (ascii_of_nat 34) s +:+ String (ascii_of_nat 34) EmptyString.

Definition databases_json : string :=
  "[{" +:+ quoted "host" +:+ ":" +:+ quoted "a" +:+ "},{"
       +:+ quoted "port" +:+ ":1},null]".

Definition files : gmap string string :=
  list_to_map [("/secrets/client.crt", "CERTIFICATE");
               ("/secrets/client.key", "PRIVATE KEY");
               ("/etc/databases.json", databases_json)].

Definition readFile (path : string) : result string :=
  match files !! path with
  | Some content => Ok content
  | None => Throw (Error "ENOENT")
  end.

Definition pathExists (path : string) : bool :=
  bool_decide (is_Some (files !! path)).

(** [JSON.parse] on the one JSON text of these runs; the other texts on
    disk are not JSON, and on them it throws. *)
Definition parse (text : string) : result value :=
  if String.eqb text databases_json then
    Ok (VArr [VObj (literal ∅ [("host", VStr "a")]);
              VObj (literal ∅ [("port", VNum 1)]);
              VNull])
  else Throw (Error "SyntaxError").

(** The compressors the validator of the runs accepts. *)
Definition compressors : list string :=
  ["NONE"; "GZIP"; "ZSTD"; "LZ4"; "SNAPPY"; "Brotli"; "PHPGZCompress"].

(** A validator that asks for a host and for a compressor it knows. *)
Definition validate (d : obj) : result unit :=
  match prop d "host" with
  | VStr _ =>
      match prop d "compressor" with
      | VUndefined | VNull => Ok tt
      | VStr m =>
          if bool_decide (m ∈ compressors) then Ok tt
          else
            Throw (ValidationErrors
                     [{| property := "compressor";
                         constraints :=
                           [("isEnum", "compressor must be a valid enum value")] |}])
      | _ =>
          Throw (ValidationErrors
                   [{| property := "compressor";
                       constraints :=
                         [("isEnum", "compressor must be a valid enum value")] |}])
      end
  | _ =>
      Throw (ValidationErrors
               [{| property := "host";
                   constraints := [("isNotEmpty", "host should not be empty")] |}])
  end.

Definition env : gmap string string :=
  list_to_map [
    ("HOME", "/root");
    ("RI_REDIS_HOST", "");
    ("RI_REDIS_HOST1", "host1");
    ("RI_REDIS_PORT1", "6380");
    ("RI_REDIS_TLS1", "true");
    ("RI_REDIS_TLS_CERT_PATH1", "/secrets/client.crt");
    ("RI_REDIS_TLS_KEY_PATH1", "/secrets/client.key");
    ("RI_REDIS_TLS_CA_BASE641", "SU5MSU5FIENB");
    ("RI_REDIS_TLS_CA_PATH1", "/secrets/client.crt");
    ("RI_REDIS_HOST2", "host2");
    ("RI_REDIS_PORT2", "0")].

Definition platform : Platform :=
  Build_Platform "NONE" compressors "NOT CONNECTED" nat uuid env readFile
    pathExists decode parse parseInt10 Number_toString validate.

Definition populate : obj -> nat -> result obj * nat :=
  @populateDefaultValues platform.

Definition prepare : string -> nat -> result (option obj) * nat :=
  @prepareDatabaseFromEnvs platform.

Definition certificate : string -> string -> nat -> result value * nat :=
  @getCertificateData platform.

Definition discoverEnv : nat -> result (list obj) * nat :=
  @discoverEnvDatabasesToAdd platform.

Definition discoverFile : string -> nat -> result (list obj) * nat :=
  @discoverFileDatabasesToAdd platform.

Definition tagged : obj :=
  literal ∅ [("host", VStr "h"); ("createdBy", VStr "ops")].

Definition host_only : obj := literal ∅ [("host", VStr "h")].

End Sample.

(** ** Further auxiliary definitions *)

(** The names the normalizer copies from its input when they are there:
    the destructured ones but for the two certificates. *)
Definition supplied_names : list string :=
  ["id"; "host"; "port"; "name"; "db"; "provider"; "modules";
   "verifyServerCert"; "ssh"; "sshOptions"; "tls"; "tlsServername";
   "nameFromProvider"; "username"; "password"; "compressor"].

(** A platform that differs in its environment only. *)
Definition with_env (p : Platform) (e : gmap string string) : Platform :=
  Build_Platform (@Compressor_NONE p) (@Compressor_members p)
    (@ConnectionType_NOT_CONNECTED p) (@Generator p) (@uuidv4 p) e
    (@readFile p) (@pathExists p) (@base64_decode p) (@JSON_parse p)
    (@parseInt10 p) (@Number_toString p) (@validate p).

(** The variables [prepareDatabaseFromEnvs] and the three certificate
    resolutions it starts look up for a host key. *)
Definition variables_of (hostEnv : string) : list string :=
  let id := replace_prefix "RI_REDIS_HOST" hostEnv in
  [hostEnv;
   "RI_REDIS_PORT" +:+ id;
   "RI_REDIS_DB" +:+ id;
   "RI_REDIS_ALIAS" +:+ id;
   "RI_REDIS_USERNAME" +:+ id;
   "RI_REDIS_PASSWORD" +:+ id;
   "RI_REDIS_TLS" +:+ id;
   "RI_REDIS_COMPRESSOR" +:+ id;
   "RI_REDIS_TLS_CA_BASE64" +:+ id;
   "RI_REDIS_TLS_CA_PATH" +:+ id;
   "RI_REDIS_TLS_CERT_BASE64" +:+ id;
   "RI_REDIS_TLS_CERT_PATH" +:+ id;
   "RI_REDIS_TLS_KEY_BASE64" +:+ id;
   "RI_REDIS_TLS_KEY_PATH" +:+ id].

(** A second environment for the runs: the bare host key next to the one
    with suffix 0, a blank inline CA beside a readable path, and an empty
    inline CA beside a readable path. *)
Module Edge.

Definition env : gmap string string :=
  list_to_map [
    ("RI_REDIS_HOST", "a");
    ("RI_REDIS_HOST0", "b");
    ("RI_REDIS_DB0", "3");
    ("RI_REDIS_ALIAS0", "primary");
    ("RI_REDIS_USERNAME0", "admin");
    ("RI_REDIS_TLS_CA_BASE64", " ");
    ("RI_REDIS_TLS_CA_PATH", "/secrets/client.crt");
    ("RI_REDIS_TLS_CA_BASE640", "");
    ("RI_REDIS_TLS_CA_PATH0", "/secrets/client.key")].

Definition platform : Platform := with_env Sample.platform env.

Definition prepare : string -> nat -> result (option obj) * nat :=
  @prepareDatabaseFromEnvs platform.

Definition certificate : string -> string -> nat -> result value * nat :=
  @getCertificateData platform.

(** The environment of [Sample] with an unrelated variable changed and
    another one added. *)
Definition elsewhere : gmap string string :=
  <["RI_REDIS_PORT2" := "7000"]> (<["HOME" := "/home/redis"]> Sample.env).

(** The environment of [Sample] with a compressor that the validator of
    the runs does not know. *)
Definition foreign : gmap string string :=
  <["RI_REDIS_COMPRESSOR2" := "not-a-compressor"]> Sample.env.

Definition nulled : obj :=
  literal ∅ [("host", VStr "h"); ("port", VNull); ("id", VStr "given")].

End Edge.

(** * Properties *)

Section Properties.

Context {platform : Platform}.

Set Default Proof Using "Type".

(** ** Reading a property of an object literal *)

Lemma lookup_literal (k : string) (props : list (string * value)) (base : obj) :
  literal base props !! k = written k props (base !! k).
Proof.
  revert base. induction props as [|[k' v] props IH]; intros base; [done|].
  change (literal base ((k', v) :: props)) with (literal (<[k' := v]> base) props).
  rewrite IH, lookup_insert. simpl.
  destruct (String.eqb_spec k' k); case_decide; congruence.
Qed.

Lemma written_not_in (k : string) (props : list (string * value)) acc :
  k ∉ props.*1 -> written k props acc = acc.
Proof.
  revert acc. induction props as [|[k' v] props IH]; intros acc Hk; [done|].
  simpl in *. apply not_elem_of_cons in Hk as [Hne Hk].
  rewrite IH by done. destruct (String.eqb_spec k' k); congruence.
Qed.

Lemma prop_literal (k : string) (props : list (string * value)) (base : obj) :
  prop (literal base props) k = default VUndefined (written k props (base !! k)).
Proof. unfold prop. by rewrite lookup_literal. Qed.

(** ** The normalizer *)

(** Splits on how the [id] of the input is resolved, leaving one goal for
    a generated identifier and one for each kind of supplied value. *)
Ltac run_populate database g :=
  unfold populateDefaultValues, bind, ret;
  let Hid := fresh "Hid" in
  destruct (prop database "id") eqn:Hid;
  [ let u := fresh "u" in let g' := fresh "g'" in
    destruct (uuidv4 g) as [u g'] | .. ].

Ltac read_field := rewrite ?prop_literal, ?lookup_literal; reflexivity.

Lemma populateDefaultValues_returns (database : obj) (g : Generator) :
  exists out g', populateDefaultValues database g = (Ok out, g').
Proof. run_populate database g; eauto. Qed.

(** C9: whatever the input carries, the normalized definition has
    [connectionType = NOT_CONNECTED] and [isPreSetup = true]. *)
Theorem populateDefaultValues_forced_fields (database : obj) (g : Generator) :
  exists out g',
    populateDefaultValues database g = (Ok out, g') /\
    out !! "connectionType" = Some (VStr ConnectionType_NOT_CONNECTED) /\
    out !! "isPreSetup" = Some (VBool true).
Proof.
  run_populate database g; eexists _, _; (split; [reflexivity|]);
    split; read_field.
Qed.

(** C10: the host of the output is the host of the input, absent or not,
    and a property whose name is none of the twenty the normalizer
    writes is in the output exactly as it is in the input. *)
Theorem populateDefaultValues_frame (database : obj) (g : Generator) (k : string) :
  k ∉ written_names ->
  exists out g',
    populateDefaultValues database g = (Ok out, g') /\
    prop out "host" = prop database "host" /\
    out !! k = database !! k.
Proof.
  intros Hk.
  run_populate database g; eexists _, _; (split; [reflexivity|]);
    (split; [read_field|]);
    rewrite lookup_literal; by apply written_not_in.
Qed.

Lemma populateDefaultValues_normalizes (database : obj) (g : Generator) :
  exists out g',
    populateDefaultValues database g = (Ok out, g') /\ normalizes database g out g'.
Proof.
  unfold normalizes, stamped.
  run_populate database g; eexists _, _; (split; [reflexivity|]);
    repeat (split; [rewrite ?prop_literal; reflexivity|]);
    (split; intros k Hk; rewrite lookup_literal; [by apply written_not_in|]);
    unfold written_names in Hk;
    repeat (apply elem_of_cons in Hk as [-> | Hk]; [by eexists|]);
    by apply elem_of_nil in Hk.
Qed.

Ltac by_field Hk :=
  match goal with
  | H : prop ?out ?f = _ |- prop ?out ?f = _ => rewrite H, Hk; reflexivity
  end.

(** C2, amended: a field of the default table that is unset in the input
    has its default in the output, where the default of [db] is [null]
    (and that of [port] is 6379, of [compressor] is NONE). *)
Theorem populateDefaultValues_defaults (database : obj) (g : Generator) (k : string) :
  prop database k = VUndefined ->
  exists out g',
    populateDefaultValues database g = (Ok out, g') /\
    forall v, (k, v) ∈ default_table (prop out "host") (prop out "port") ->
              prop out k = v.
Proof.
  intros Hk.
  destruct (populateDefaultValues_normalizes database g) as (out & g' & Hrun & Hn).
  exists out, g'. split; [exact Hrun|].
  intros v Hv. unfold normalizes in Hn. destruct_and!.
  unfold default_table in Hv.
  repeat (apply elem_of_cons in Hv as [Hv|Hv];
          [injection Hv as -> ->; by_field Hk|]).
  by apply elem_of_nil in Hv.
Qed.

(** C1: on a definition without [id] the result gets the generated
    identifier, while its CA certificate is stamped with the [id] of the
    input, which is [undefined], and with a name built from it. *)
Theorem populateDefaultValues_stamps_input_id (g : Generator) :
  exists out g' cert,
    populateDefaultValues unidentified_with_ca g = (Ok out, g') /\
    out !! "id" = Some (VStr (uuidv4 g).1) /\
    out !! "name" = Some (VStr "h:6379") /\
    out !! "caCert" = Some (VObj cert) /\
    cert !! "id" = Some VUndefined /\
    cert !! "name" = Some (VStr "undefined_h:6379") /\
    cert !! "isPreSetup" = Some (VBool true).
Proof.
  unfold populateDefaultValues, bind, ret.
  change (prop unidentified_with_ca "id") with VUndefined.
  cbv beta iota. destruct (uuidv4 g) as [u g1]. cbv beta iota. simpl fst.
  eexists _, _, _. split; [reflexivity|].
  do 5 (split; [rewrite lookup_literal; reflexivity|]).
  rewrite lookup_literal; reflexivity.
Qed.

(** With an [id] in the input, a certificate that is an object is stamped
    with the [id] and the name of the result. *)
Lemma populateDefaultValues_stamps_supplied_id (database cert : obj) (g : Generator)
    (field : string) :
  field = "caCert" \/ field = "clientCert" ->
  prop database "id" <> VUndefined ->
  prop database field = VObj cert ->
  exists out g' stamp,
    populateDefaultValues database g = (Ok out, g') /\
    prop out field = VObj stamp /\
    prop stamp "id" = prop out "id" /\
    prop stamp "name" =
      VStr (to_string (prop out "id") +:+ "_" +:+ to_string (prop out "name")) /\
    prop stamp "isPreSetup" = VBool true.
Proof.
  intros Hfield Hid Hcert.
  destruct (populateDefaultValues_normalizes database g) as (out & g' & Hrun & Hn).
  unfold normalizes in Hn. destruct_and!.
  assert (prop out "id" = prop database "id") as Hout.
  { destruct (prop database "id"); by simplify_eq. }
  exists out, g'. eexists. split; [exact Hrun|].
  destruct Hfield as [-> | ->];
    (split; [match goal with H : prop out ?f = _ |- prop out ?f = _ => rewrite H end;
             rewrite Hcert; reflexivity|]);
    rewrite !prop_literal, Hout; repeat split; reflexivity.
Qed.

(** C5: on a definition without [id] a second normalization changes the
    client certificate: the first one stamps it with [undefined], the
    second with the identifier the first one generated. *)
Theorem populateDefaultValues_restamps_certificate (g : Generator) :
  exists once g1 twice g2 cert1 cert2,
    populateDefaultValues unidentified_with_client g = (Ok once, g1) /\
    populateDefaultValues once g1 = (Ok twice, g2) /\
    prop once "clientCert" = VObj cert1 /\
    prop twice "clientCert" = VObj cert2 /\
    cert1 !! "id" = Some VUndefined /\
    cert2 !! "id" = Some (VStr (uuidv4 g).1) /\
    prop twice "clientCert" <> prop once "clientCert".
Proof.
  unfold populateDefaultValues at 1. unfold bind, ret.
  change (prop unidentified_with_client "id") with VUndefined.
  cbv beta iota. destruct (uuidv4 g) as [u g1]. cbv beta iota. simpl fst.
  eexists _, _, _, _, _, _. split; [reflexivity|].
  split; [unfold populateDefaultValues, bind, ret; rewrite prop_literal; reflexivity|].
  split; [rewrite prop_literal; reflexivity|].
  split; [rewrite prop_literal; reflexivity|].
  split; [rewrite lookup_literal; reflexivity|].
  split; [rewrite lookup_literal; reflexivity|].
  rewrite !prop_literal.
  intros Heq.
  apply (f_equal (fun v => match v with VObj o => o !! "id" | _ => None end)) in Heq.
  rewrite !lookup_literal in Heq. discriminate Heq.
Qed.

Lemma dflt_dflt (v d : value) : dflt (dflt v d) d = dflt v d.
Proof. destruct v; try reflexivity. by destruct d. Qed.

(** Apart from the two certificates, a second normalization reads the
    same everywhere, and draws no identifier. *)
Lemma populateDefaultValues_twice (database once : obj) (g g1 : Generator) :
  populateDefaultValues database g = (Ok once, g1) ->
  exists twice,
    populateDefaultValues once g1 = (Ok twice, g1) /\
    normalizes once g1 twice g1 /\
    forall k, k <> "caCert" -> k <> "clientCert" -> prop twice k = prop once k.
Proof.
  intros Hrun.
  destruct (populateDefaultValues_normalizes database g) as (o & g1' & Hrun' & Hn1).
  rewrite Hrun in Hrun'. injection Hrun' as <- <-.
  destruct (populateDefaultValues_normalizes once g1) as (twice & g2 & Hrun2 & Hn2).
  assert (prop twice "id" = prop once "id" /\ g2 = g1) as [Hid ->].
  { destruct Hn1 as [Hid1 _], Hn2 as [Hid2 _].
    assert (prop once "id" <> VUndefined) as Hdefined.
    { destruct (prop database "id"); injection Hid1 as -> _; discriminate. }
    destruct (prop once "id"); [done|..]; by injection Hid2. }
  exists twice. split; [exact Hrun2|]. split; [exact Hn2|].
  unfold normalizes in Hn1, Hn2.
  destruct Hn1 as (_ & Hhost1 & Hport1 & Hname1 & Hdb1 & Hprovider1 & Hmodules1
    & Hverify1 & Hssh1 & Hoptions1 & Htls1 & Hservername1 & _ & _ & Hfrom1
    & Husername1 & Hpassword1 & Hcompressor1 & Htype1 & Hpre1 & _).
  destruct Hn2 as (_ & Hhost2 & Hport2 & Hname2 & Hdb2 & Hprovider2 & Hmodules2
    & Hverify2 & Hssh2 & Hoptions2 & Htls2 & Hservername2 & _ & _ & Hfrom2
    & Husername2 & Hpassword2 & Hcompressor2 & Htype2 & Hpre2 & Hframe2 & _).
  assert (prop twice "port" = prop once "port") as Hport.
  { rewrite Hport2, Hport1. apply dflt_dflt. }
  intros k Hca Hclient.
  destruct (decide (k ∈ written_names)) as [Hin|Hout].
  - unfold written_names in Hin.
    repeat (apply elem_of_cons in Hin as [-> | Hin]);
      try done; try congruence;
      try (match goal with
           | H2 : prop twice ?f = dflt _ ?d, H1 : prop once ?f = dflt _ ?d
             |- prop twice ?f = prop once ?f =>
               rewrite H2, H1; apply dflt_dflt
           end).
    + rewrite Hname2, Hhost2, Hport, Hname1. apply dflt_dflt.
    + by apply elem_of_nil in Hin.
  - unfold prop. by rewrite Hframe2.
Qed.

Lemma written_cases (k : string) (props : list (string * value)) :
  (forall acc, written k props acc = acc) \/
  (exists v, forall acc, written k props acc = Some v).
Proof.
  induction props as [|[k' v] props IH]; [by left|].
  simpl. destruct IH as [IH | [w IH]].
  - destruct (String.eqb k' k).
    + right. exists v. intros acc. apply IH.
    + left. intros acc. apply IH.
  - right. exists w. intros acc. apply IH.
Qed.

Lemma literal_twice (base : obj) (props : list (string * value)) :
  literal (literal base props) props = literal base props.
Proof.
  apply map_eq. intros k. rewrite !lookup_literal.
  destruct (written_cases k props) as [H | [v H]]; by rewrite !H.
Qed.

(** With an [id] in the input, a second normalization changes nothing at
    all: the certificates are stamped with the same [id] again. *)
Lemma populateDefaultValues_idempotent_with_id (database once : obj) (g g1 : Generator) :
  prop database "id" <> VUndefined ->
  populateDefaultValues database g = (Ok once, g1) ->
  populateDefaultValues once g1 = (Ok once, g1).
Proof.
  intros Hsupplied Hrun.
  destruct (populateDefaultValues_twice _ _ _ _ Hrun) as (twice & Hrun2 & Hn2 & Hsame).
  destruct (populateDefaultValues_normalizes database g) as (o & g1' & Hrun' & Hn1).
  rewrite Hrun in Hrun'. injection Hrun' as <- <-.
  assert (forall k, prop twice k = prop once k) as Hprop.
  { intros k.
    assert (prop once "id" = prop database "id") as Hid.
    { destruct Hn1 as [Hid1 _]. destruct (prop database "id"); by injection Hid1. }
    pose proof (Hsame "name" ltac:(discriminate) ltac:(discriminate)) as Hname.
    unfold normalizes in Hn1, Hn2.
    destruct Hn1 as (_ & _ & _ & _ & _ & _ & _ & _ & _ & _ & _ & _ & Hca1 & Hclient1 & _).
    destruct Hn2 as (_ & _ & _ & _ & _ & _ & _ & _ & _ & _ & _ & _ & Hca2 & Hclient2 & _).
    assert (forall cert,
              stamped once (prop twice "name")
                (dflt (stamped database (prop once "name") (dflt cert VNull)) VNull)
              = stamped database (prop once "name") (dflt cert VNull)) as Hstamp.
    { intros cert. unfold stamped at 2 3.
      destruct (truthy (dflt cert VNull)) eqn:Htruthy.
      - unfold stamped. cbv beta iota delta [dflt truthy ownProps].
        rewrite Hid, Hname. by rewrite literal_twice.
      - unfold stamped.
        assert (dflt (dflt cert VNull) VNull = dflt cert VNull) as -> by apply dflt_dflt.
        by rewrite Htruthy. }
    destruct (decide (k = "caCert")) as [-> | Hca];
      [rewrite Hca2, Hca1; apply Hstamp|].
    destruct (decide (k = "clientCert")) as [-> | Hclient];
      [rewrite Hclient2, Hclient1; apply Hstamp|].
    by apply Hsame. }
  rewrite Hrun2. f_equal. f_equal. apply map_eq. intros k.
  destruct (decide (k ∈ written_names)) as [Hin|Hout].
  - destruct Hn2 as (_ & _ & _ & _ & _ & _ & _ & _ & _ & _ & _ & _ & _ & _ & _ & _ & _
      & _ & _ & _ & _ & Hsome2).
    destruct Hn1 as (_ & _ & _ & _ & _ & _ & _ & _ & _ & _ & _ & _ & _ & _ & _ & _ & _
      & _ & _ & _ & _ & Hsome1).
    destruct (Hsome2 k Hin) as [v2 Hv2], (Hsome1 k Hin) as [v1 Hv1].
    specialize (Hprop k). unfold prop in Hprop. rewrite Hv2, Hv1 in Hprop |- *.
    simpl in Hprop. by rewrite Hprop.
  - destruct Hn2 as (_ & _ & _ & _ & _ & _ & _ & _ & _ & _ & _ & _ & _ & _ & _ & _ & _
      & _ & _ & _ & Hframe2 & _). by apply Hframe2.
Qed.

(** ** Certificates *)

Lemma getenv_or_empty (k : string) :
  js_or (getenv k) (VStr "") = VStr (default "" (setting k)).
Proof.
  unfold js_or, getenv, setting. destruct (env !! k) as [s|]; [|done].
  simpl. by destruct (String.eqb_spec s "") as [->|].
Qed.

Lemma truthy_setting (k : string) :
  truthy (VStr (default "" (setting k))) = bool_decide (is_Some (setting k)).
Proof.
  unfold setting. destruct (env !! k) as [s|]; [|done].
  destruct (String.eqb_spec s "") as [->|Hs]; [done|].
  simpl. by destruct (String.eqb_spec s "").
Qed.

Lemma getCertificateData_run (envPrefix id : string) (g : Generator) :
  getCertificateData envPrefix id g = (Ok (resolveCertificate envPrefix id), g).
Proof.
  unfold getCertificateData, resolveCertificate, bind, try_catch, lift, ret.
  rewrite !getenv_or_empty, !truthy_setting.
  destruct (setting (envPrefix +:+ "_BASE64" +:+ id)) as [base64|]; simpl.
  - by destruct (base64_decode base64).
  - destruct (setting (envPrefix +:+ "_PATH" +:+ id)) as [path|]; simpl; [|done].
    by destruct (readFile path).
Qed.

(** C7: [getCertificateData] never throws. When the base64 variable is set
    it returns the decoded inline value, whatever the path variable is;
    else, when the path variable is set, the content of that file; else
    [null]. A failure to decode or to read gives [null]. *)
Theorem getCertificateData_resolution (envPrefix id : string) (g : Generator) :
  (exists v, getCertificateData envPrefix id g = (Ok v, g)) /\
  (forall base64,
     setting (envPrefix +:+ "_BASE64" +:+ id) = Some base64 ->
     getCertificateData envPrefix id g =
       (Ok (match base64_decode base64 with
            | Ok decoded => VStr decoded
            | Throw _ => VNull
            end), g)) /\
  (forall path,
     setting (envPrefix +:+ "_BASE64" +:+ id) = None ->
     setting (envPrefix +:+ "_PATH" +:+ id) = Some path ->
     getCertificateData envPrefix id g =
       (Ok (match readFile path with
            | Ok content => VStr content
            | Throw _ => VNull
            end), g)) /\
  (setting (envPrefix +:+ "_BASE64" +:+ id) = None ->
   setting (envPrefix +:+ "_PATH" +:+ id) = None ->
   getCertificateData envPrefix id g = (Ok VNull, g)).
Proof.
  rewrite getCertificateData_run. unfold resolveCertificate.
  split; [by eexists|].
  split; [intros base64 ->; reflexivity|].
  split.
  - intros path -> ->. reflexivity.
  - intros -> ->. reflexivity.
Qed.

(** ** The environment pipeline *)

Lemma prop_insert (o : obj) (k k' : string) (v : value) :
  prop (<[k := v]> o) k' = if String.eqb k k' then v else prop o k'.
Proof.
  unfold prop. rewrite lookup_insert.
  destruct (String.eqb_spec k k'); case_decide; simpl; congruence.
Qed.

(** What [prepareDatabaseFromEnvs] hands to the normalizer, as far as the
    properties below need it, and what it returns: the normalized
    definition when the validator accepts it, [null] otherwise. *)
Lemma prepareDatabaseFromEnvs_run (hostEnv : string) (g : Generator) :
  let id := replace_prefix "RI_REDIS_HOST" hostEnv in
  let tlsCA := resolveCertificate "RI_REDIS_TLS_CA" id in
  let tlsCertificate := resolveCertificate "RI_REDIS_TLS_CERT" id in
  let tlsKey := resolveCertificate "RI_REDIS_TLS_KEY" id in
  exists databaseToAdd preparedDatabase : obj,
    populateDefaultValues databaseToAdd g = (Ok preparedDatabase, g) /\
    normalizes databaseToAdd g preparedDatabase g /\
    prepareDatabaseFromEnvs hostEnv g =
      (Ok (match validate preparedDatabase with
           | Ok _ => Some preparedDatabase
           | Throw _ => None
           end), g) /\
    prop databaseToAdd "id" = VStr (host_id hostEnv) /\
    prop databaseToAdd "host" = getenv hostEnv /\
    prop databaseToAdd "port" =
      js_or (parseInt (getenv ("RI_REDIS_PORT" +:+ id))) (VNum 6379) /\
    prop databaseToAdd "tls" =
      VBool (strict_eq_str (getenv ("RI_REDIS_TLS" +:+ id)) "true") /\
    prop databaseToAdd "compressor" = getenv ("RI_REDIS_COMPRESSOR" +:+ id) /\
    prop databaseToAdd "caCert" =
      (if truthy tlsCA then VObj (literal ∅ [("certificate", tlsCA)])
       else VUndefined) /\
    prop databaseToAdd "clientCert" =
      (if truthy tlsCertificate && truthy tlsKey
       then VObj (literal ∅ [("certificate", tlsCertificate); ("key", tlsKey)])
       else VUndefined) /\
    prop databaseToAdd "verifyServerCert" =
      (if truthy tlsCertificate && truthy tlsKey then VBool true else VUndefined).
Proof.
  intros id tlsCA tlsCertificate tlsKey.
  unfold prepareDatabaseFromEnvs, try_catch, bind.
  rewrite !getCertificateData_run. cbv beta iota zeta.
  fold id. fold tlsCA tlsCertificate tlsKey.
  match goal with
  | |- context [populateDefaultValues ?d g] => set (databaseToAdd := d)
  end.
  assert (prop databaseToAdd "id" = VStr (host_id hostEnv)) as Hid.
  { unfold databaseToAdd, host_id, js_or. fold id. simpl truthy.
    destruct (truthy tlsCertificate && truthy tlsKey), (truthy tlsCA),
      (String.eqb id "");
      rewrite ?prop_insert, prop_literal; reflexivity. }
  destruct (populateDefaultValues_normalizes databaseToAdd g)
    as (preparedDatabase & g' & Hrun & Hn).
  assert (g' = g) as ->.
  { destruct Hn as [Hn _]. rewrite Hid in Hn. by injection Hn. }
  exists databaseToAdd, preparedDatabase. split; [exact Hrun|].
  split; [exact Hn|].
  split.
  { rewrite Hrun. unfold lift, ret.
    destruct (validate preparedDatabase) as [?|e]; [done|].
    cbv beta iota. by destruct (isArray e). }
  split; [exact Hid|].
  unfold databaseToAdd.
  destruct (truthy tlsCertificate && truthy tlsKey), (truthy tlsCA);
    repeat split; rewrite ?prop_insert, ?prop_literal; reflexivity.
Qed.

(** A definition the pipeline returns is a normalized one. *)
Lemma prepareDatabaseFromEnvs_inv (hostEnv : string) (g g' : Generator) (d : obj) :
  prepareDatabaseFromEnvs hostEnv g = (Ok (Some d), g') ->
  let id := replace_prefix "RI_REDIS_HOST" hostEnv in
  let tlsCertificate := resolveCertificate "RI_REDIS_TLS_CERT" id in
  let tlsKey := resolveCertificate "RI_REDIS_TLS_KEY" id in
  exists databaseToAdd : obj,
    normalizes databaseToAdd g d g /\
    prop databaseToAdd "port" =
      js_or (parseInt (getenv ("RI_REDIS_PORT" +:+ id))) (VNum 6379) /\
    prop databaseToAdd "tls" =
      VBool (strict_eq_str (getenv ("RI_REDIS_TLS" +:+ id)) "true") /\
    prop databaseToAdd "compressor" = getenv ("RI_REDIS_COMPRESSOR" +:+ id) /\
    prop databaseToAdd "clientCert" =
      (if truthy tlsCertificate && truthy tlsKey
       then VObj (literal ∅ [("certificate", tlsCertificate); ("key", tlsKey)])
       else VUndefined) /\
    prop databaseToAdd "verifyServerCert" =
      (if truthy tlsCertificate && truthy tlsKey then VBool true else VUndefined).
Proof.
  intros Hd id tlsCertificate tlsKey.
  destruct (prepareDatabaseFromEnvs_run hostEnv g)
    as (databaseToAdd & preparedDatabase & _ & Hn & Hrun & _ & _ & Hport & Htls
        & Hcompressor & _ & Hclient & Hverify).
  rewrite Hrun in Hd.
  destruct (validate preparedDatabase); [|discriminate Hd].
  injection Hd as -> _. by exists databaseToAdd.
Qed.



(** What [parseInt] makes of a variable of the environment. *)
Lemma parseInt_getenv (k : string) :
  parseInt (getenv k) =
    match env !! k with
    | Some raw => VNumber (parseInt10 raw)
    | None => VNaN
    end.
Proof. unfold parseInt, getenv. by destruct (env !! k). Qed.


(** C6, amended: the port of a definition the pipeline returns is the
    number [parseInt] returns for the variable when that number is neither
    0 nor [NaN], and is 6379 when the variable is absent or [parseInt]
    returns [NaN] or 0; its [tls] is true exactly when the variable is the
    text ["true"]. *)
Theorem prepareDatabaseFromEnvs_port_tls (hostEnv : string) (g g' : Generator) (d : obj) :
  prepareDatabaseFromEnvs hostEnv g = (Ok (Some d), g') ->
  let id := replace_prefix "RI_REDIS_HOST" hostEnv in
  prop d "port" =
    match env !! ("RI_REDIS_PORT" +:+ id) with
    | Some raw =>
        match parseInt10 raw with
        | Finite n => if n =? 0 then VNum 6379 else VNum n
        | NotANumber => VNum 6379
        | Infinite negative => VInfinity negative
        end
    | None => VNum 6379
    end /\
  (prop d "tls" = VBool true <-> env !! ("RI_REDIS_TLS" +:+ id) = Some "true") /\
  (prop d "tls" = VBool true \/ prop d "tls" = VBool false).
Proof.
  intros Hd id.
  destruct (prepareDatabaseFromEnvs_inv _ _ _ _ Hd)
    as (databaseToAdd & Hn & Hport & Htls & _).
  fold id in Hport, Htls.
  unfold normalizes in Hn. destruct_and!.
  repeat match goal with H : prop d _ = _ |- _ => rewrite H; clear H end.
  rewrite Hport, Htls, parseInt_getenv. unfold getenv, js_or.
  split.
  - destruct (env !! ("RI_REDIS_PORT" +:+ id)) as [raw|]; [|reflexivity].
    destruct (parseInt10 raw) as [n| |negative]; [|reflexivity..].
    simpl. by destruct (n =? 0).
  - destruct (env !! ("RI_REDIS_TLS" +:+ id)) as [raw|]; simpl.
    + destruct (String.eqb_spec raw "true") as [->|Hne]; simpl.
      * split; [split; reflexivity | by left].
      * split; [|by right]. split; intros Heq; [discriminate Heq|].
        injection Heq as Heq. contradiction.
    + split; [|by right]. split; intros Heq; discriminate Heq.
Qed.

(** C8: when the client certificate and the client key are both present,
    the definition the pipeline returns carries them in [clientCert] and
    has [verifyServerCert = true]; when either is absent it has neither a
    client certificate nor a forced [verifyServerCert]. *)
Theorem prepareDatabaseFromEnvs_client_certificate (hostEnv : string) (g g' : Generator)
    (d : obj) :
  prepareDatabaseFromEnvs hostEnv g = (Ok (Some d), g') ->
  let id := replace_prefix "RI_REDIS_HOST" hostEnv in
  let tlsCertificate := resolveCertificate "RI_REDIS_TLS_CERT" id in
  let tlsKey := resolveCertificate "RI_REDIS_TLS_KEY" id in
  if present tlsCertificate && present tlsKey then
    exists clientCert : obj,
      prop d "clientCert" = VObj clientCert /\
      prop clientCert "certificate" = tlsCertificate /\
      prop clientCert "key" = tlsKey /\
      prop d "verifyServerCert" = VBool true
  else
    prop d "clientCert" = VNull /\ prop d "verifyServerCert" = VNull.
Proof.
  intros Hd id tlsCertificate tlsKey.
  destruct (prepareDatabaseFromEnvs_inv _ _ _ _ Hd)
    as (databaseToAdd & Hn & _ & _ & _ & Hclient & Hverify).
  fold id in Hclient, Hverify. fold tlsCertificate tlsKey in Hclient, Hverify.
  unfold normalizes in Hn. destruct_and!.
  repeat match goal with H : prop d _ = _ |- _ => rewrite H; clear H end.
  rewrite Hclient, Hverify. unfold present, stamped.
  destruct (truthy tlsCertificate && truthy tlsKey);
    cbv beta iota delta [dflt truthy].
  - eexists. split; [reflexivity|]. rewrite !prop_literal. by repeat split.
  - done.
Qed.

(** ** The two discovery entry points *)

Lemma promise_all_map {A B} (f : A -> M B) (r : A -> B) (l : list A)
    (g : Generator) :
  (forall a, f a g = (Ok (r a), g)) ->
  promise_all (List.map f l) g = (Ok (List.map r l), g).
Proof.
  intros Hf. induction l as [|a l IH]; [done|].
  simpl. by rewrite Hf, IH.
Qed.

Lemma omap_map {A B} (f : A -> option B) (l : list A) :
  omap (fun v => v) (List.map f l) = omap f l.
Proof.
  induction l as [|a l IH]; [done|].
  simpl. destruct (f a); simpl; [f_equal|]; exact IH.
Qed.

Lemma prepareDatabaseFromEnvs_returns (hostEnv : string) (g : Generator) :
  exists r, prepareDatabaseFromEnvs hostEnv g = (Ok r, g).
Proof.
  destruct (prepareDatabaseFromEnvs_run hostEnv g)
    as (? & ? & _ & _ & Hrun & _). eauto.
Qed.

Lemma discoverEnvDatabasesToAdd_run (g : Generator) :
  discoverEnvDatabasesToAdd g =
    (Ok (omap (fun hostEnv => contribution (prepareDatabaseFromEnvs hostEnv g).1)
              scanProcessEnv), g).
Proof.
  unfold discoverEnvDatabasesToAdd, try_catch, bind, ret.
  rewrite (promise_all_map _
             (fun hostEnv => contribution (prepareDatabaseFromEnvs hostEnv g).1)).
  - by rewrite omap_map.
  - intros k. destruct (prepareDatabaseFromEnvs_returns k g) as [r ->]. done.
Qed.

Lemma prepareDatabaseFromFile_returns (e : value) (g : Generator) :
  exists r, prepareDatabaseFromFile e g = (Ok r, generator_after e g).
Proof.
  unfold prepareDatabaseFromFile, generator_after, try_catch, bind, throw, lift, ret.
  destruct e; try (eexists; reflexivity);
    match goal with
    | |- context [populateDefaultValues ?d g] =>
        destruct (populateDefaultValues_returns d g) as (out & g' & ->)
    end;
    simpl; destruct (validate out); eauto.
Qed.

Lemma promise_all_in_turn (elements : list value) (g : Generator) :
  promise_all (List.map prepareDatabaseFromFile elements) g =
    (Ok (in_turn elements g).1, (in_turn elements g).2).
Proof.
  revert g. induction elements as [|e rest IH]; intros g; [done|].
  simpl. destruct (prepareDatabaseFromFile_returns e g) as [r ->].
  rewrite IH. by destruct (in_turn rest (generator_after e g)).
Qed.

Lemma discoverFileDatabasesToAdd_run (path : string) (g : Generator) :
  exists g',
    discoverFileDatabasesToAdd path g =
      (Ok (match fileElements path with
           | Some elements => omap (fun v => v) (in_turn elements g).1
           | None => []
           end), g').
Proof.
  unfold discoverFileDatabasesToAdd, fileElements, try_catch, bind, lift, throw, ret.
  destruct (pathExists path); [|eauto].
  destruct (readFile path) as [text|]; [|eauto].
  destruct (JSON_parse text) as [fileData|]; [|eauto].
  destruct fileData; eauto.
  rewrite promise_all_in_turn. eauto.
Qed.

Lemma elem_of_in_turn (elements : list value) (g : Generator) (d : obj) :
  d ∈ omap (fun v => v) (in_turn elements g).1 <->
  exists i e,
    elements !! i = Some e /\
    (prepareDatabaseFromFile e (generator_at elements i g)).1 = Ok (Some d).
Proof.
  revert g. induction elements as [|e rest IH]; intros g.
  - simpl. split; [by intros ?%elem_of_nil | by intros (i & e & ? & _)].
  - simpl. destruct (in_turn rest (generator_after e g)) as [rs g'] eqn:Hrest.
    assert (rs = (in_turn rest (generator_after e g)).1) as Hrs by (by rewrite Hrest).
    simpl. destruct (prepareDatabaseFromFile_returns e g) as [r Hr].
    rewrite Hr. simpl. split.
    + intros Hd.
      assert (r = Some d \/ d ∈ omap (fun v => v) rs) as [-> | Hin].
      { destruct r as [d'|]; [|by right].
        apply elem_of_cons in Hd as [-> | Hd]; [by left | by right]. }
      * exists 0%nat, e. split; [done|]. unfold generator_at. simpl. by rewrite Hr.
      * rewrite Hrs in Hin. apply IH in Hin as (i & e' & Hi & Hd').
        exists (S i), e'. split; [done|]. exact Hd'.
    + intros (i & e' & Hi & Hd').
      destruct i as [|i].
      * injection Hi as <-. unfold generator_at in Hd'. simpl in Hd'.
        rewrite Hr in Hd'. injection Hd' as ->. apply elem_of_cons. by left.
      * assert (d ∈ omap (fun v => v) rs) as Hin.
        { rewrite Hrs. apply IH. by exists i, e'. }
        destruct r; [apply elem_of_cons; by right | done].
Qed.

(** C4: both entry points return a collection and never throw. The
    collection of the environment pipeline holds exactly what the host keys
    found by the scan yield, each prepared on its own; the collection of
    the file pipeline holds exactly what the elements of the file yield,
    each prepared on its own with the generator as the elements before it
    left it. A preparation that fails contributes nothing and changes
    nothing else. *)
Theorem discovery_contains_failures :
  (forall g,
     exists databases,
       discoverEnvDatabasesToAdd g = (Ok databases, g) /\
       forall d,
         d ∈ databases <->
         exists hostEnv,
           hostEnv ∈ scanProcessEnv /\
           prepareDatabaseFromEnvs hostEnv g = (Ok (Some d), g)) /\
  (forall path g,
     exists databases g',
       discoverFileDatabasesToAdd path g = (Ok databases, g') /\
       forall d,
         d ∈ databases <->
         exists elements i e,
           fileElements path = Some elements /\
           elements !! i = Some e /\
           (prepareDatabaseFromFile e (generator_at elements i g)).1 = Ok (Some d)).
Proof.
  split.
  - intros g. eexists. split; [apply discoverEnvDatabasesToAdd_run|].
    intros d. rewrite list_elem_of_omap. split.
    + intros (hostEnv & Hin & Hd). exists hostEnv. split; [done|].
      destruct (prepareDatabaseFromEnvs_returns hostEnv g) as [r Hr].
      rewrite Hr in Hd |- *. simpl in Hd. by rewrite Hd.
    + intros (hostEnv & Hin & Hd). exists hostEnv. split; [done|]. by rewrite Hd.
  - intros path g.
    destruct (discoverFileDatabasesToAdd_run path g) as [g' Hrun].
    eexists _, g'. split; [exact Hrun|].
    intros d. destruct (fileElements path) as [elements|].
    + rewrite elem_of_in_turn. split.
      * intros (i & e & Hi & Hd). by exists elements, i, e.
      * intros (elements' & i & e & [= <-] & Hi & Hd). by exists i, e.
    + split; [by intros ?%elem_of_nil | by intros (? & ? & ? & ? & _)].
Qed.

(** * Further properties *)

(** ** What the environment pipeline assembles *)

(** The partial definition of a host key in full, and the run that
    follows from it. *)
Lemma prepareDatabaseFromEnvs_assembled (hostEnv : string) (g : Generator) :
  let id := replace_prefix "RI_REDIS_HOST" hostEnv in
  let tlsCA := resolveCertificate "RI_REDIS_TLS_CA" id in
  let tlsCertificate := resolveCertificate "RI_REDIS_TLS_CERT" id in
  let tlsKey := resolveCertificate "RI_REDIS_TLS_KEY" id in
  exists databaseToAdd preparedDatabase : obj,
    populateDefaultValues databaseToAdd g = (Ok preparedDatabase, g) /\
    normalizes databaseToAdd g preparedDatabase g /\
    prepareDatabaseFromEnvs hostEnv g =
      (Ok (match validate preparedDatabase with
           | Ok _ => Some preparedDatabase
           | Throw _ => None
           end), g) /\
    prop databaseToAdd "id" = VStr (host_id hostEnv) /\
    prop databaseToAdd "host" = getenv hostEnv /\
    prop databaseToAdd "db" =
      js_or (parseInt (getenv ("RI_REDIS_DB" +:+ id))) (VNum 0) /\
    prop databaseToAdd "name" = getenv ("RI_REDIS_ALIAS" +:+ id) /\
    prop databaseToAdd "username" = getenv ("RI_REDIS_USERNAME" +:+ id) /\
    prop databaseToAdd "password" = getenv ("RI_REDIS_PASSWORD" +:+ id) /\
    prop databaseToAdd "caCert" =
      (if truthy tlsCA then VObj (literal ∅ [("certificate", tlsCA)])
       else VUndefined) /\
    prop databaseToAdd "clientCert" =
      (if truthy tlsCertificate && truthy tlsKey
       then VObj (literal ∅ [("certificate", tlsCertificate); ("key", tlsKey)])
       else VUndefined).
Proof.
  intros id tlsCA tlsCertificate tlsKey.
  unfold prepareDatabaseFromEnvs, try_catch, bind.
  rewrite !getCertificateData_run. cbv beta iota zeta.
  fold id. fold tlsCA tlsCertificate tlsKey.
  match goal with
  | |- context [populateDefaultValues ?d g] => set (databaseToAdd := d)
  end.
  assert (prop databaseToAdd "id" = VStr (host_id hostEnv)) as Hid.
  { unfold databaseToAdd, host_id, js_or. fold id. simpl truthy.
    destruct (truthy tlsCertificate && truthy tlsKey), (truthy tlsCA),
      (String.eqb id "");
      rewrite ?prop_insert, prop_literal; reflexivity. }
  destruct (populateDefaultValues_normalizes databaseToAdd g)
    as (preparedDatabase & g' & Hrun & Hn).
  assert (g' = g) as ->.
  { destruct Hn as [Hn _]. rewrite Hid in Hn. by injection Hn. }
  exists databaseToAdd, preparedDatabase. split; [exact Hrun|].
  split; [exact Hn|].
  split.
  { rewrite Hrun. unfold lift, ret.
    destruct (validate preparedDatabase) as [?|e]; [done|].
    cbv beta iota. by destruct (isArray e). }
  split; [exact Hid|].
  unfold databaseToAdd.
  destruct (truthy tlsCertificate && truthy tlsKey), (truthy tlsCA);
    repeat split; rewrite ?prop_insert, ?prop_literal; reflexivity.
Qed.

(** The same, read from a definition the pipeline returned. *)
Lemma prepareDatabaseFromEnvs_returned (hostEnv : string) (g g' : Generator)
    (d : obj) :
  prepareDatabaseFromEnvs hostEnv g = (Ok (Some d), g') ->
  let id := replace_prefix "RI_REDIS_HOST" hostEnv in
  let tlsCA := resolveCertificate "RI_REDIS_TLS_CA" id in
  let tlsCertificate := resolveCertificate "RI_REDIS_TLS_CERT" id in
  let tlsKey := resolveCertificate "RI_REDIS_TLS_KEY" id in
  exists databaseToAdd : obj,
    g' = g /\
    validate d = Ok tt /\
    populateDefaultValues databaseToAdd g = (Ok d, g) /\
    normalizes databaseToAdd g d g /\
    prop databaseToAdd "id" = VStr (host_id hostEnv) /\
    prop databaseToAdd "host" = getenv hostEnv /\
    prop databaseToAdd "db" =
      js_or (parseInt (getenv ("RI_REDIS_DB" +:+ id))) (VNum 0) /\
    prop databaseToAdd "name" = getenv ("RI_REDIS_ALIAS" +:+ id) /\
    prop databaseToAdd "username" = getenv ("RI_REDIS_USERNAME" +:+ id) /\
    prop databaseToAdd "password" = getenv ("RI_REDIS_PASSWORD" +:+ id) /\
    prop databaseToAdd "caCert" =
      (if truthy tlsCA then VObj (literal ∅ [("certificate", tlsCA)])
       else VUndefined) /\
    prop databaseToAdd "clientCert" =
      (if truthy tlsCertificate && truthy tlsKey
       then VObj (literal ∅ [("certificate", tlsCertificate); ("key", tlsKey)])
       else VUndefined).
Proof.
  intros Hd id tlsCA tlsCertificate tlsKey.
  destruct (prepareDatabaseFromEnvs_assembled hostEnv g)
    as (databaseToAdd & preparedDatabase & Hpopulate & Hn & Hrun & Hfields).
  rewrite Hrun in Hd.
  destruct (validate preparedDatabase) as [[]|] eqn:Hvalid; [|discriminate Hd].
  injection Hd as -> <-. by exists databaseToAdd.
Qed.

(** X1: a definition the environment pipeline returns has the suffix of
    its host key as [id] (["0"] for the bare key), the value of the host
    variable as [host], and has passed the validator; no identifier is
    generated for it. *)
Theorem prepareDatabaseFromEnvs_identity (hostEnv : string) (g g' : Generator)
    (d : obj) :
  prepareDatabaseFromEnvs hostEnv g = (Ok (Some d), g') ->
  g' = g /\
  prop d "id" =
    VStr (if String.eqb (replace_prefix "RI_REDIS_HOST" hostEnv) "" then "0"
          else replace_prefix "RI_REDIS_HOST" hostEnv) /\
  prop d "host" = getenv hostEnv /\
  validate d = Ok tt.
Proof.
  intros Hd.
  destruct (prepareDatabaseFromEnvs_returned _ _ _ _ Hd)
    as (databaseToAdd & -> & Hvalid & _ & Hn & Hid & Hhost & _).
  destruct Hn as (Hid' & Hhost' & _).
  rewrite Hid in Hid'. injection Hid' as Hid'.
  split; [reflexivity|]. split; [exact Hid'|].
  split; [by rewrite Hhost', Hhost | exact Hvalid].
Qed.

(** X2: the [db] of a definition the environment pipeline returns is
    always a number other than [NaN]: the one [parseInt] returns for
    RI_REDIS_DB{id}, and 0 when the variable is absent or [parseInt]
    returns [NaN]. *)
Theorem prepareDatabaseFromEnvs_db (hostEnv : string) (g g' : Generator) (d : obj) :
  prepareDatabaseFromEnvs hostEnv g = (Ok (Some d), g') ->
  prop d "db" =
    match env !! ("RI_REDIS_DB" +:+ replace_prefix "RI_REDIS_HOST" hostEnv) with
    | Some raw =>
        match parseInt10 raw with
        | Finite n => VNum n
        | NotANumber => VNum 0
        | Infinite negative => VInfinity negative
        end
    | None => VNum 0
    end.
Proof.
  intros Hd.
  destruct (prepareDatabaseFromEnvs_returned _ _ _ _ Hd)
    as (databaseToAdd & _ & _ & _ & Hn & _ & _ & Hdb & _).
  destruct Hn as (_ & _ & _ & _ & Hdb' & _).
  rewrite Hdb', Hdb, parseInt_getenv. unfold js_or.
  destruct (env !! _) as [raw|]; [|reflexivity].
  destruct (parseInt10 raw) as [n| |negative]; [|reflexivity..].
  simpl. destruct (Z.eqb_spec n 0) as [->|]; reflexivity.
Qed.

(** X3: the [name] of a definition the environment pipeline returns is the
    alias variable whenever it is present, empty or not, and
    ["{host}:{port}"] of the result when it is absent; [username] and
    [password] are the raw variables, [null] when absent. *)
Theorem prepareDatabaseFromEnvs_name_credentials (hostEnv : string)
    (g g' : Generator) (d : obj) :
  prepareDatabaseFromEnvs hostEnv g = (Ok (Some d), g') ->
  let id := replace_prefix "RI_REDIS_HOST" hostEnv in
  prop d "name" =
    match env !! ("RI_REDIS_ALIAS" +:+ id) with
    | Some alias => VStr alias
    | None => VStr (to_string (prop d "host") +:+ ":" +:+ to_string (prop d "port"))
    end /\
  prop d "username" =
    match env !! ("RI_REDIS_USERNAME" +:+ id) with
    | Some username => VStr username
    | None => VNull
    end /\
  prop d "password" =
    match env !! ("RI_REDIS_PASSWORD" +:+ id) with
    | Some password => VStr password
    | None => VNull
    end.
Proof.
  intros Hd id.
  destruct (prepareDatabaseFromEnvs_returned _ _ _ _ Hd)
    as (databaseToAdd & _ & _ & _ & Hn & _ & _ & _ & Hname & Huser & Hpass & _).
  fold id in Hname, Huser, Hpass.
  unfold normalizes in Hn. destruct_and!.
  repeat split.
  - match goal with H : prop d "name" = _ |- _ => rewrite H at 1 end.
    rewrite Hname. unfold getenv. by destruct (env !! _).
  - match goal with H : prop d "username" = _ |- _ => rewrite H end.
    rewrite Huser. unfold getenv. by destruct (env !! _).
  - match goal with H : prop d "password" = _ |- _ => rewrite H end.
    rewrite Hpass. unfold getenv. by destruct (env !! _).
Qed.

(** X4: in a definition the environment pipeline returns, a CA certificate
    is attached exactly when one is resolved, and every certificate it
    carries is stamped with the [id] and the [name] of the definition
    itself. *)
Theorem prepareDatabaseFromEnvs_certificates (hostEnv : string)
    (g g' : Generator) (d : obj) :
  prepareDatabaseFromEnvs hostEnv g = (Ok (Some d), g') ->
  let tlsCA :=
    resolveCertificate "RI_REDIS_TLS_CA" (replace_prefix "RI_REDIS_HOST" hostEnv) in
  (if present tlsCA then
     exists caCert : obj,
       prop d "caCert" = VObj caCert /\ prop caCert "certificate" = tlsCA
   else prop d "caCert" = VNull) /\
  forall (field : string) (cert : obj),
    field = "caCert" \/ field = "clientCert" ->
    prop d field = VObj cert ->
    prop cert "id" = prop d "id" /\
    prop cert "name" =
      VStr (to_string (prop d "id") +:+ "_" +:+ to_string (prop d "name")) /\
    prop cert "isPreSetup" = VBool true.
Proof.
  intros Hd tlsCA.
  destruct (prepareDatabaseFromEnvs_returned _ _ _ _ Hd)
    as (databaseToAdd & _ & _ & _ & Hn & Hid & _ & _ & _ & _ & _ & Hca & Hclient).
  fold tlsCA in Hca.
  destruct Hn as (Hid' & _ & _ & _ & _ & _ & _ & _ & _ & _ & _ & _ & Hca' & Hclient' & _).
  rewrite Hid in Hid'. injection Hid' as Hid'.
  split.
  - rewrite Hca', Hca. unfold present, stamped.
    destruct (truthy tlsCA); cbv beta iota delta [dflt truthy]; [|done].
    eexists. split; [reflexivity|]. by rewrite !prop_literal.
  - intros field cert [-> | ->] Hcert.
    + rewrite Hca', Hca in Hcert. unfold stamped in Hcert.
      destruct (truthy tlsCA); cbv beta iota delta [dflt truthy] in Hcert;
        [|discriminate Hcert].
      match type of Hcert with
      | VObj ?o = _ => assert (cert = o) as -> by congruence
      end.
      rewrite !prop_literal, Hid, Hid'. by repeat split.
    + rewrite Hclient', Hclient in Hcert. unfold stamped in Hcert.
      destruct (_ && _); cbv beta iota delta [dflt truthy] in Hcert;
        [|discriminate Hcert].
      match type of Hcert with
      | VObj ?o = _ => assert (cert = o) as -> by congruence
      end.
      rewrite !prop_literal, Hid, Hid'. by repeat split.
Qed.

(** ** The scan *)

Lemma map_fst_fmap {A B} (l : list (A * B)) : List.map fst l = l.*1.
Proof. induction l as [|x l IH]; [done|]. simpl. by rewrite IH. Qed.

Lemma truthy_getenv (k : string) :
  truthy (getenv k) = true <-> exists v, env !! k = Some v /\ v <> "".
Proof.
  unfold getenv. destruct (env !! k) as [s|]; simpl.
  - destruct (String.eqb_spec s "") as [->|Hs]; simpl.
    + split; [discriminate|]. by intros (v & [= <-] & Hv).
    + split; [eauto|done].
  - split; [discriminate|]. by intros (v & Hv & _).
Qed.

Lemma elem_of_scanProcessEnv (k : string) :
  k ∈ scanProcessEnv <->
  String.prefix "RI_REDIS_HOST" k = true /\ exists v, env !! k = Some v /\ v <> "".
Proof.
  unfold scanProcessEnv.
  rewrite list_elem_of_In, List.filter_In, <- list_elem_of_In, map_fst_fmap.
  rewrite andb_true_iff, truthy_getenv. split.
  - intros [_ Hk]. exact Hk.
  - intros [Hprefix (v & Hv & Hne)]. split; [|eauto].
    apply list_elem_of_fmap. exists (k, v). split; [done|].
    by apply elem_of_map_to_list.
Qed.

(** X5: the scan lists, each once, exactly the variables whose name starts
    with RI_REDIS_HOST and whose value is not empty. *)
Theorem scanProcessEnv_spec :
  NoDup scanProcessEnv /\
  forall k,
    k ∈ scanProcessEnv <->
    String.prefix "RI_REDIS_HOST" k = true /\
    exists v, env !! k = Some v /\ v <> "".
Proof.
  split; [|exact elem_of_scanProcessEnv].
  unfold scanProcessEnv. apply NoDup_ListNoDup, List.NoDup_filter, NoDup_ListNoDup.
  rewrite map_fst_fmap. apply NoDup_fst_map_to_list.
Qed.

(** ** Host keys and identifiers *)

Lemma prefix_strip (p s : string) :
  String.prefix p s = true -> exists r, strip_prefix p s = Some r /\ s = p +:+ r.
Proof.
  revert s. induction p as [|a p IH]; intros s Hp; [by exists s|].
  destruct s as [|b s]; [discriminate Hp|].
  simpl in Hp. destruct (ascii_dec a b) as [<-|]; [|discriminate Hp].
  destruct (IH s Hp) as (r & Hr & ->).
  exists r. simpl. by rewrite Ascii.eqb_refl, Hr.
Qed.

Lemma host_key_suffix (hostEnv : string) :
  String.prefix "RI_REDIS_HOST" hostEnv = true ->
  hostEnv = "RI_REDIS_HOST" +:+ replace_prefix "RI_REDIS_HOST" hostEnv.
Proof.
  intros Hp. destruct (prefix_strip _ _ Hp) as (r & Hr & Heq).
  unfold replace_prefix. by rewrite Hr.
Qed.

(** X6: two host keys give definitions with the same [id] exactly when
    they are the same key, or one is the bare RI_REDIS_HOST and the other
    RI_REDIS_HOST0: both get ["0"]. *)
Theorem prepareDatabaseFromEnvs_same_id (hostEnv1 hostEnv2 : string)
    (g1 g1' g2 g2' : Generator) (d1 d2 : obj) :
  String.prefix "RI_REDIS_HOST" hostEnv1 = true ->
  String.prefix "RI_REDIS_HOST" hostEnv2 = true ->
  prepareDatabaseFromEnvs hostEnv1 g1 = (Ok (Some d1), g1') ->
  prepareDatabaseFromEnvs hostEnv2 g2 = (Ok (Some d2), g2') ->
  prop d1 "id" = prop d2 "id" <->
  hostEnv1 = hostEnv2 \/
  (hostEnv1 = "RI_REDIS_HOST" /\ hostEnv2 = "RI_REDIS_HOST0") \/
  (hostEnv1 = "RI_REDIS_HOST0" /\ hostEnv2 = "RI_REDIS_HOST").
Proof.
  intros Hp1 Hp2 Hd1 Hd2.
  destruct (prepareDatabaseFromEnvs_returned _ _ _ _ Hd1)
    as (a1 & _ & _ & _ & [Hout1 _] & Hid1 & _).
  destruct (prepareDatabaseFromEnvs_returned _ _ _ _ Hd2)
    as (a2 & _ & _ & _ & [Hout2 _] & Hid2 & _).
  rewrite Hid1 in Hout1. rewrite Hid2 in Hout2.
  injection Hout1 as ->. injection Hout2 as ->.
  apply host_key_suffix in Hp1, Hp2. unfold host_id.
  destruct (String.eqb_spec (replace_prefix "RI_REDIS_HOST" hostEnv1) "") as [E1|N1],
    (String.eqb_spec (replace_prefix "RI_REDIS_HOST" hostEnv2) "") as [E2|N2].
  - split; [|done]. intros _. left. congruence.
  - rewrite E1 in Hp1. split.
    + intros [= Heq]. right. left. split; [done|]. by rewrite Hp2, <- Heq.
    + intros [Heq | [[_ Heq] | [Heq _]]].
      * exfalso. apply N2. rewrite Heq in Hp1. rewrite Hp2 in Hp1 at 1.
        simpl in Hp1. by simplify_eq.
      * rewrite Heq in Hp2. simpl in Hp2. by simplify_eq.
      * rewrite Heq in Hp1. discriminate Hp1.
  - rewrite E2 in Hp2. split.
    + intros [= Heq]. right. right. split; [|done]. by rewrite Hp1, Heq.
    + intros [Heq | [[Heq _] | [Heq _]]].
      * exfalso. apply N1. rewrite <- Heq in Hp2. rewrite Hp1 in Hp2 at 1.
        simpl in Hp2. by simplify_eq.
      * exfalso. apply N1. rewrite Heq in Hp1. simpl in Hp1. by simplify_eq.
      * rewrite Heq in Hp1. simpl in Hp1. by simplify_eq.
  - split.
    + intros [= Heq]. left. by rewrite Hp1, Hp2, Heq.
    + intros [Heq | [[Heq _] | [_ Heq]]].
      * by rewrite Heq.
      * exfalso. apply N1. rewrite Heq in Hp1. simpl in Hp1. by simplify_eq.
      * exfalso. apply N2. rewrite Heq in Hp2. simpl in Hp2. by simplify_eq.
Qed.

(** ** The environment batch *)

Lemma discoverEnvDatabasesToAdd_inv (g g' : Generator) (databases : list obj) :
  discoverEnvDatabasesToAdd g = (Ok databases, g') ->
  g' = g /\
  databases =
    omap (fun hostEnv => contribution (prepareDatabaseFromEnvs hostEnv g).1)
         scanProcessEnv.
Proof. rewrite discoverEnvDatabasesToAdd_run. by intros [= <- <-]. Qed.

(** X7: every definition in the collection of the environment pipeline
    comes from a variable whose name starts with RI_REDIS_HOST and whose
    value, not empty, is its [host]; it has passed the validator and is
    marked as pre-setup and not connected. The generator is left as it
    was. *)
Theorem discoverEnvDatabasesToAdd_origin (g g' : Generator) (databases : list obj)
    (d : obj) :
  discoverEnvDatabasesToAdd g = (Ok databases, g') ->
  d ∈ databases ->
  g' = g /\
  validate d = Ok tt /\
  prop d "connectionType" = VStr ConnectionType_NOT_CONNECTED /\
  prop d "isPreSetup" = VBool true /\
  exists hostEnv value,
    String.prefix "RI_REDIS_HOST" hostEnv = true /\
    env !! hostEnv = Some value /\
    value <> "" /\
    prop d "host" = VStr value.
Proof.
  intros [-> ->]%discoverEnvDatabasesToAdd_inv Hd.
  apply list_elem_of_omap in Hd as (hostEnv & Hscan & Hd).
  destruct (prepareDatabaseFromEnvs_returns hostEnv g) as [r Hr].
  rewrite Hr in Hd. simpl in Hd. subst r.
  destruct (prepareDatabaseFromEnvs_returned _ _ _ _ Hr)
    as (databaseToAdd & _ & Hvalid & _ & Hn & _ & Hhost & _).
  unfold normalizes in Hn. destruct_and!.
  apply elem_of_scanProcessEnv in Hscan as (Hprefix & value & Hvalue & Hne).
  split; [reflexivity|]. split; [exact Hvalid|].
  split; [assumption|]. split; [assumption|].
  exists hostEnv, value.
  split; [exact Hprefix|]. split; [exact Hvalue|]. split; [exact Hne|].
  match goal with H : prop d "host" = _ |- _ => rewrite H end.
  rewrite Hhost. unfold getenv. by rewrite Hvalue.
Qed.




(** ** More on the normalizer *)

Lemma dflt_supplied (v d : value) : v <> VUndefined -> dflt v d = v.
Proof. by destruct v. Qed.

(** X9: a value the input supplies for one of the destructured names other
    than the certificates is kept as it is, [null] included; and when the
    [id] is supplied no identifier is generated. *)
Theorem populateDefaultValues_keeps_supplied (database : obj) (g : Generator)
    (k : string) :
  k ∈ supplied_names ->
  prop database k <> VUndefined ->
  exists out g',
    populateDefaultValues database g = (Ok out, g') /\
    prop out k = prop database k /\
    (k = "id" -> g' = g).
Proof.
  intros Hk Hsupplied.
  destruct (populateDefaultValues_normalizes database g) as (out & g' & Hrun & Hn).
  exists out, g'. split; [exact Hrun|].
  unfold normalizes in Hn. destruct Hn as (Hid & Hn). destruct_and!.
  unfold supplied_names in Hk.
  apply elem_of_cons in Hk as [-> | Hk].
  { destruct (prop database "id"); [done|..]; injection Hid as -> ->; by split. }
  repeat (apply elem_of_cons in Hk as [-> | Hk];
          [split; [|discriminate];
           match goal with
           | H : prop out ?f = _ |- prop out ?f = _ =>
               rewrite H; try reflexivity; by apply dflt_supplied
           end|]).
  by apply elem_of_nil in Hk.
Qed.

(** X10: the properties of the normalized definition are those of the
    input together with the twenty the normalizer writes: none is dropped,
    and the twenty are there whatever the input holds. *)
Theorem populateDefaultValues_properties (database : obj) (g : Generator) :
  exists out g',
    populateDefaultValues database g = (Ok out, g') /\
    dom out = dom database ∪ list_to_set written_names.
Proof.
  destruct (populateDefaultValues_normalizes database g) as (out & g' & Hrun & Hn).
  exists out, g'. split; [exact Hrun|].
  destruct Hn as (_ & _ & _ & _ & _ & _ & _ & _ & _ & _ & _ & _ & _ & _ & _ & _ & _
    & _ & _ & _ & Hframe & Hsome).
  apply set_eq. intros k.
  rewrite elem_of_union, !elem_of_dom, elem_of_list_to_set.
  destruct (decide (k ∈ written_names)) as [Hin | Hout].
  - split; [by right | intros _; by apply Hsome].
  - rewrite (Hframe k Hout). split; [by left | by intros [? | ?]].
Qed.

(** X11: a definition the environment pipeline returns is a fixed point of
    the normalizer: normalizing it again gives the same object and draws
    no identifier. *)
Theorem prepareDatabaseFromEnvs_normal (hostEnv : string) (g g' : Generator)
    (d : obj) :
  prepareDatabaseFromEnvs hostEnv g = (Ok (Some d), g') ->
  populateDefaultValues d g' = (Ok d, g').
Proof.
  intros Hd.
  destruct (prepareDatabaseFromEnvs_returned _ _ _ _ Hd)
    as (databaseToAdd & -> & _ & Hrun & _ & Hid & _).
  apply (populateDefaultValues_idempotent_with_id databaseToAdd d g g);
    [by rewrite Hid | exact Hrun].
Qed.

(** ** More on certificates *)

(** X12: an inline CA value that is set but decodes to the empty text
    leaves the definition the environment pipeline returns without a CA
    certificate: the file behind the path variable is not used, whatever
    it holds. *)
Theorem prepareDatabaseFromEnvs_blank_inline_ca (hostEnv base64 : string)
    (g g' : Generator) (d : obj) :
  prepareDatabaseFromEnvs hostEnv g = (Ok (Some d), g') ->
  setting ("RI_REDIS_TLS_CA_BASE64" +:+ replace_prefix "RI_REDIS_HOST" hostEnv)
    = Some base64 ->
  base64_decode base64 = Ok "" ->
  prop d "caCert" = VNull.
Proof.
  intros Hd Hset Hdecode.
  destruct (prepareDatabaseFromEnvs_returned _ _ _ _ Hd)
    as (databaseToAdd & _ & _ & _ & Hn & _ & _ & _ & _ & _ & _ & Hca & _).
  destruct Hn as (_ & _ & _ & _ & _ & _ & _ & _ & _ & _ & _ & _ & Hca' & _).
  rewrite Hca', Hca. unfold resolveCertificate.
  change ("RI_REDIS_TLS_CA" +:+ "_BASE64" +:+ ?id)
    with ("RI_REDIS_TLS_CA_BASE64" +:+ id).
  by rewrite Hset, Hdecode.
Qed.

(** X13: an inline variable that is set to the empty string is passed
    over: the result is what the path variable alone gives. *)
Theorem getCertificateData_empty_inline (envPrefix id : string) (g : Generator) :
  env !! (envPrefix +:+ "_BASE64" +:+ id) = Some "" ->
  getCertificateData envPrefix id g =
    (Ok (match env !! (envPrefix +:+ "_PATH" +:+ id) with
         | Some path =>
             if String.eqb path "" then VNull
             else match readFile path with
                  | Ok content => VStr content
                  | Throw _ => VNull
                  end
         | None => VNull
         end), g).
Proof.
  intros Hempty. rewrite getCertificateData_run.
  unfold resolveCertificate, setting. rewrite Hempty.
  change (String.eqb "" "") with true. cbv beta iota.
  destruct (env !! (envPrefix +:+ "_PATH" +:+ id)) as [path|]; [|done].
  by destruct (String.eqb path "").
Qed.

(** ** The file pipeline *)

(** X14: the file pipeline returns the empty collection, and leaves the
    generator as it was, when the path does not exist, when the file
    cannot be read, when its text does not parse, and when the parsed value
    is not an array. *)
Theorem discoverFileDatabasesToAdd_degrades (path : string) (g : Generator) :
  pathExists path = false \/
  (exists e, readFile path = Throw e) \/
  (exists text e, readFile path = Ok text /\ JSON_parse text = Throw e) \/
  (exists text v,
     readFile path = Ok text /\ JSON_parse text = Ok v /\ forall l, v <> VArr l) ->
  discoverFileDatabasesToAdd path g = (Ok [], g).
Proof.
  unfold discoverFileDatabasesToAdd, try_catch, bind, lift, throw, ret.
  intros [Hmissing | [[e Hread] | [(text & e & Hread & Hparse)
                                  | (text & v & Hread & Hparse & Harray)]]].
  - by rewrite Hmissing.
  - destruct (pathExists path); [|done]. by rewrite Hread.
  - destruct (pathExists path); [|done]. by rewrite Hread, Hparse.
  - destruct (pathExists path); [|done]. rewrite Hread, Hparse.
    destruct v; try done. by destruct (Harray l).
Qed.

Lemma prepareDatabaseFromFile_inv (e : value) (g g' : Generator) (d : obj) :
  prepareDatabaseFromFile e g = (Ok (Some d), g') ->
  e <> VUndefined /\ e <> VNull /\
  populateDefaultValues (ownProps e) g = (Ok d, g') /\
  validate d = Ok tt.
Proof.
  unfold prepareDatabaseFromFile, try_catch, bind, throw, lift, ret.
  destruct e; try discriminate;
    match goal with
    | |- context [populateDefaultValues ?o g] =>
        destruct (populateDefaultValues_returns o g) as (out & g1 & ->)
    end;
    cbv beta iota;
    (destruct (validate out) as [[]|] eqn:Hvalid; [|discriminate]);
    intros [= <- <-]; by repeat split.
Qed.

(** X15: every definition in the collection of the file pipeline is what
    the normalizer returns for an element of the parsed array that is
    neither [null] nor [undefined], run with the generator as the elements
    before it left it; it has passed the validator, is marked as pre-setup
    and not connected, and keeps the host and every property of the
    element that the normalizer does not write. *)
Theorem discoverFileDatabasesToAdd_origin (path : string) (g g' : Generator)
    (databases : list obj) (d : obj) :
  discoverFileDatabasesToAdd path g = (Ok databases, g') ->
  d ∈ databases ->
  validate d = Ok tt /\
  prop d "connectionType" = VStr ConnectionType_NOT_CONNECTED /\
  prop d "isPreSetup" = VBool true /\
  exists text elements i e,
    pathExists path = true /\
    readFile path = Ok text /\
    JSON_parse text = Ok (VArr elements) /\
    elements !! i = Some e /\
    e <> VNull /\ e <> VUndefined /\
    (exists g1,
       populateDefaultValues (ownProps e) (generator_at elements i g) = (Ok d, g1)) /\
    prop d "host" = prop (ownProps e) "host" /\
    forall k, k ∉ written_names -> d !! k = ownProps e !! k.
Proof.
  intros Hrun Hd.
  destruct (discoverFileDatabasesToAdd_run path g) as [g1 Hrun'].
  rewrite Hrun in Hrun'. injection Hrun' as -> _.
  unfold fileElements in Hd.
  destruct (pathExists path); [|by apply elem_of_nil in Hd].
  destruct (readFile path) as [text|] eqn:Hread; [|by apply elem_of_nil in Hd].
  destruct (JSON_parse text) as [[| | | | | | |elements|]|] eqn:Hparse;
    try by apply elem_of_nil in Hd.
  apply elem_of_in_turn in Hd as (i & e & Hi & Hd).
  destruct (prepareDatabaseFromFile e (generator_at elements i g)) as [r g2] eqn:Hr.
  simpl in Hd. subst r.
  apply prepareDatabaseFromFile_inv in Hr as (Hundefined & Hnull & Hpopulate & Hvalid).
  destruct (populateDefaultValues_normalizes (ownProps e) (generator_at elements i g))
    as (out & g3 & Hpopulate' & Hn).
  rewrite Hpopulate in Hpopulate'. injection Hpopulate' as <- <-.
  unfold normalizes in Hn. destruct_and!.
  split; [exact Hvalid|]. split; [assumption|]. split; [assumption|].
  exists text, elements, i, e.
  split; [reflexivity|]. split; [reflexivity|]. split; [exact Hparse|].
  split; [exact Hi|].
  split; [exact Hnull|]. split; [exact Hundefined|].
  split; [by exists g2|].
  split; assumption.
Qed.

(** ** Identifiers, absent certificates, ports *)

(** X17: for an input without [id] the normalizer draws exactly one
    identifier from the generator and gives it to the result. *)
Theorem populateDefaultValues_generates_id (database : obj) (g : Generator) :
  prop database "id" = VUndefined ->
  exists out,
    populateDefaultValues database g = (Ok out, (uuidv4 g).2) /\
    prop out "id" = VStr (uuidv4 g).1.
Proof.
  intros Hid.
  destruct (populateDefaultValues_normalizes database g) as (out & g' & Hrun & Hn).
  destruct Hn as [Hout _]. rewrite Hid in Hout. injection Hout as Hout ->.
  by exists out.
Qed.

(** X18: a certificate that the input does not carry, or carries as
    [null], is [null] in the result: nothing is stamped. *)
Theorem populateDefaultValues_absent_certificate (database : obj) (g : Generator)
    (field : string) :
  field = "caCert" \/ field = "clientCert" ->
  prop database field = VUndefined \/ prop database field = VNull ->
  exists out g',
    populateDefaultValues database g = (Ok out, g') /\
    prop out field = VNull.
Proof.
  intros Hfield Habsent.
  destruct (populateDefaultValues_normalizes database g) as (out & g' & Hrun & Hn).
  exists out, g'. split; [exact Hrun|].
  destruct Hn as (_ & _ & _ & _ & _ & _ & _ & _ & _ & _ & _ & _ & Hca & Hclient & _).
  destruct Hfield as [-> | ->]; [rewrite Hca | rewrite Hclient];
    by destruct Habsent as [-> | ->].
Qed.

(** X19: the port of a definition the environment pipeline returns is
    always a number that is neither 0 nor [NaN] (a negative one when the
    variable holds a negative number): it is never [null] or
    [undefined]. *)
Theorem prepareDatabaseFromEnvs_port_nonzero (hostEnv : string) (g g' : Generator)
    (d : obj) :
  prepareDatabaseFromEnvs hostEnv g = (Ok (Some d), g') ->
  exists x : number,
    x <> Finite 0 /\ x <> NotANumber /\ prop d "port" = VNumber x.
Proof.
  intros Hd.
  destruct (prepareDatabaseFromEnvs_inv _ _ _ _ Hd)
    as (databaseToAdd & Hn & Hport & _).
  destruct Hn as (_ & _ & Hport' & _).
  rewrite Hport', Hport, parseInt_getenv. unfold js_or.
  destruct (env !! _) as [raw|]; [|by exists (Finite 6379)].
  destruct (parseInt10 raw) as [n| |negative].
  - simpl. destruct (Z.eqb_spec n 0) as [->|Hn]; simpl.
    + by exists (Finite 6379).
    + exists (Finite n). repeat split; congruence.
  - by exists (Finite 6379).
  - by exists (Infinite negative).
Qed.

End Properties.

(** ** Concrete runs *)

Lemma observe_inv {A B S} (f : A -> B) (r : result A * S) (b : B) :
  observe f r = Some b -> exists a s, r = (Ok a, s) /\ f a = b.
Proof.
  unfold observe. destruct r as [[a|e] s]; simpl; [|discriminate].
  intros [= <-]. eauto.
Qed.

Lemma observe_prepared_inv {B S} (f : obj -> B) (r : result (option obj) * S) (b : B) :
  observe_prepared f r = Some b -> exists d s, r = (Ok (Some d), s) /\ f d = b.
Proof.
  unfold observe_prepared. destruct r as [[[d|]|e] s]; simpl; try discriminate.
  intros [= <-]. eauto.
Qed.

(** The runs the specification lists as testable. *)
Example populate_host_only :
  observe (fun d => (prop d "id", prop d "port", prop d "name", prop d "compressor",
                     prop d "connectionType", prop d "isPreSetup"))
          (Sample.populate Sample.host_only 0%nat)
  = Some (VStr "generated-0", VNum 6379, VStr "h:6379", VStr "NONE",
          VStr "NOT CONNECTED", VBool true).
Proof. vm_compute. reflexivity. Qed.

Example discoverEnv_sample :
  observe (List.map (fun d => (prop d "id", prop d "host", prop d "port", prop d "tls")))
          (Sample.discoverEnv 0%nat)
  = Some [(VStr "1", VStr "host1", VNum 6380, VBool true);
          (VStr "2", VStr "host2", VNum 6379, VBool false)].
Proof. vm_compute. reflexivity. Qed.

Example discoverFile_missing :
  observe (fun l => l) (Sample.discoverFile "/etc/nothing.json" 0%nat) = Some [].
Proof. vm_compute. reflexivity. Qed.

Example discoverFile_sample :
  observe (List.map (fun d => (prop d "id", prop d "host", prop d "name")))
          (Sample.discoverFile "/etc/databases.json" 0%nat)
  = Some [(VStr "generated-0", VStr "a", VStr "a:6379")].
Proof. vm_compute. reflexivity. Qed.

(** A file that is there but holds no JSON gives the empty collection. *)
Example discoverFile_not_json :
  Sample.readFile "/secrets/client.crt" = Ok "CERTIFICATE" /\
  observe (fun l => l) (Sample.discoverFile "/secrets/client.crt" 0%nat) = Some [].
Proof. split; vm_compute; reflexivity. Qed.

(** The built-ins of the runs on some texts and numbers. *)
Example parseInt10_sample :
  Sample.parseInt10 "6380" = Finite 6380 /\
  Sample.parseInt10 "  -12px" = Finite (-12) /\
  Sample.parseInt10 "port" = NotANumber /\
  Sample.parseInt10 "9007199254740993" = Finite 9007199254740992 /\
  Sample.parseInt10 ("1" +:+ Sample.zeros 309) = Infinite false.
Proof. repeat split; vm_compute; reflexivity. Qed.

Example Number_toString_sample :
  Sample.Number_toString (2 ^ 60) = "1152921504606847000" /\
  Sample.Number_toString (10 ^ 21) = "1e+21" /\
  Sample.Number_toString (2 ^ 70) = "1.1805916207174113e+21".
Proof. repeat split; vm_compute; reflexivity. Qed.

Example decode_sample :
  Sample.decode "SU5MSU5FIENB" = Ok "INLINE CA" /\
  Sample.decode "aGVsbG8=" = Ok "hello" /\
  Sample.decode " " = Ok "".
Proof. repeat split; vm_compute; reflexivity. Qed.

(** ** Witnesses and counterexamples *)

Lemma populateDefaultValues_frame_witness :
  exists out g',
    Sample.populate Sample.tagged 0%nat = (Ok out, g') /\
    prop out "host" = prop Sample.tagged "host" /\
    out !! "createdBy" = Sample.tagged !! "createdBy".
Proof.
  apply (@populateDefaultValues_frame Sample.platform Sample.tagged 0%nat "createdBy").
  unfold written_names. intros H.
  repeat (apply elem_of_cons in H as [H|H]; [discriminate H|]).
  by apply elem_of_nil in H.
Defined.

Lemma getCertificateData_resolution_witness :
  @setting Sample.platform "RI_REDIS_TLS_CA_BASE641" = Some "SU5MSU5FIENB" /\
  @setting Sample.platform "RI_REDIS_TLS_CA_PATH1" = Some "/secrets/client.crt" /\
  Sample.certificate "RI_REDIS_TLS_CA" "1" 0%nat = (Ok (VStr "INLINE CA"), 0%nat).
Proof.
  split; [vm_compute; reflexivity|].
  split; [vm_compute; reflexivity|].
  destruct (@getCertificateData_resolution Sample.platform "RI_REDIS_TLS_CA" "1" 0%nat)
    as (_ & Hinline & _).
  apply (Hinline "SU5MSU5FIENB"). vm_compute. reflexivity.
Defined.

(** C2: a definition without [db] is normalized to [db = null], not 0. *)
Lemma populateDefaultValues_db_counterexample :
  prop Sample.host_only "db" = VUndefined /\
  exists out g',
    Sample.populate Sample.host_only 0%nat = (Ok out, g') /\
    prop out "db" = VNull /\
    prop out "db" <> VNum 0.
Proof.
  split; [reflexivity|].
  destruct (observe_inv (fun d => prop d "db") (Sample.populate Sample.host_only 0%nat) VNull)
    as (out & g' & Hrun & Hdb); [vm_compute; reflexivity|].
  exists out, g'. split; [exact Hrun|]. split; [exact Hdb|].
  rewrite Hdb. discriminate.
Qed.

Lemma populateDefaultValues_defaults_witness :
  prop Sample.host_only "db" = VUndefined /\
  exists out g',
    Sample.populate Sample.host_only 0%nat = (Ok out, g') /\
    forall v, ("db", v) ∈ @default_table Sample.platform (prop out "host") (prop out "port") ->
              prop out "db" = v.
Proof.
  split; [reflexivity|].
  apply (@populateDefaultValues_defaults Sample.platform Sample.host_only 0%nat "db").
  reflexivity.
Defined.


(** A host key whose compressor the validator does not know yields no
    definition. *)
Example prepare_foreign_compressor :
  Edge.foreign !! "RI_REDIS_COMPRESSOR2" = Some "not-a-compressor" /\
  observe (fun r : option obj => bool_decide (r = None))
          (@prepareDatabaseFromEnvs (with_env Sample.platform Edge.foreign)
             "RI_REDIS_HOST2" 0%nat)
  = Some true.
Proof. split; vm_compute; reflexivity. Qed.


(** C6: a port variable that parses to the integer 0 gives port 6379. *)
Lemma prepareDatabaseFromEnvs_port_counterexample :
  Sample.env !! "RI_REDIS_PORT2" = Some "0" /\
  @parseInt10 Sample.platform "0" = Finite 0 /\
  exists d g',
    Sample.prepare "RI_REDIS_HOST2" 0%nat = (Ok (Some d), g') /\
    prop d "port" = VNum 6379 /\
    prop d "port" <> VNum 0.
Proof.
  split; [vm_compute; reflexivity|].
  split; [vm_compute; reflexivity|].
  destruct (observe_prepared_inv (fun d => prop d "port")
              (Sample.prepare "RI_REDIS_HOST2" 0%nat) (VNum 6379))
    as (d & g' & Hrun & Hp); [vm_compute; reflexivity|].
  exists d, g'. split; [exact Hrun|]. split; [exact Hp|].
  rewrite Hp. discriminate.
Qed.

Lemma prepareDatabaseFromEnvs_port_tls_witness :
  exists d g',
    Sample.prepare "RI_REDIS_HOST1" 0%nat = (Ok (Some d), g') /\
    prop d "port" = VNum 6380 /\
    (prop d "tls" = VBool true <-> Sample.env !! "RI_REDIS_TLS1" = Some "true") /\
    (prop d "tls" = VBool true \/ prop d "tls" = VBool false).
Proof.
  destruct (observe_prepared_inv (fun _ => tt)
              (Sample.prepare "RI_REDIS_HOST1" 0%nat) tt)
    as (d & g' & Hrun & _); [vm_compute; reflexivity|].
  exists d, g'. split; [exact Hrun|].
  destruct (@prepareDatabaseFromEnvs_port_tls Sample.platform
              "RI_REDIS_HOST1" 0%nat g' d Hrun) as (Hport & Htls & Hbool).
  split; [rewrite Hport; vm_compute; reflexivity|].
  split; [exact Htls | exact Hbool].
Defined.

Lemma prepareDatabaseFromEnvs_client_certificate_witness :
  exists d g' clientCert,
    Sample.prepare "RI_REDIS_HOST1" 0%nat = (Ok (Some d), g') /\
    prop d "clientCert" = VObj clientCert /\
    prop clientCert "certificate" = VStr "CERTIFICATE" /\
    prop clientCert "key" = VStr "PRIVATE KEY" /\
    prop d "verifyServerCert" = VBool true.
Proof.
  destruct (observe_prepared_inv (fun _ => tt)
              (Sample.prepare "RI_REDIS_HOST1" 0%nat) tt)
    as (d & g' & Hrun & _); [vm_compute; reflexivity|].
  pose proof (@prepareDatabaseFromEnvs_client_certificate Sample.platform
                "RI_REDIS_HOST1" 0%nat g' d Hrun) as H.
  cbv zeta in H.
  match type of H with
  | (if ?b then _ else _) =>
      assert (b = true) as Hb by (vm_compute; reflexivity); rewrite Hb in H
  end.
  destruct H as (clientCert & Hclient & Hcert & Hkey & Hverify).
  exists d, g', clientCert. split; [exact Hrun|]. split; [exact Hclient|].
  split; [rewrite Hcert; vm_compute; reflexivity|].
  split; [rewrite Hkey; vm_compute; reflexivity | exact Hverify].
Defined.

(** ** A host key and the rest of the environment *)

(** The normalizer and the conversions do not read the environment. *)
Lemma to_string_with_env (p : Platform) (env1 env2 : gmap string string) :
  @to_string (with_env p env1) = @to_string (with_env p env2).
Proof. reflexivity. Qed.

Lemma parseInt_with_env (p : Platform) (env1 env2 : gmap string string) :
  @parseInt (with_env p env1) = @parseInt (with_env p env2).
Proof. reflexivity. Qed.

Lemma populateDefaultValues_with_env (p : Platform) (env1 env2 : gmap string string) :
  @populateDefaultValues (with_env p env1) = @populateDefaultValues (with_env p env2).
Proof. reflexivity. Qed.

(** X16: what the pipeline makes of a host key depends on the environment
    through the fourteen variables of that key only: two environments that
    agree on them give the same outcome. *)
Theorem prepareDatabaseFromEnvs_own_variables (p : Platform)
    (env1 env2 : gmap string string) (hostEnv : string) (g : @Generator p) :
  (forall k, k ∈ variables_of hostEnv -> env1 !! k = env2 !! k) ->
  @prepareDatabaseFromEnvs (with_env p env1) hostEnv g =
  @prepareDatabaseFromEnvs (with_env p env2) hostEnv g.
Proof.
  intros Hagree.
  assert (Forall (fun k => env1 !! k = env2 !! k) (variables_of hostEnv)) as Hall.
  { apply Forall_forall. exact Hagree. }
  unfold variables_of in Hall. cbv zeta in Hall.
  repeat (apply Forall_cons_1 in Hall as [? Hall]).
  unfold prepareDatabaseFromEnvs, getCertificateData, getenv.
  rewrite (populateDefaultValues_with_env p env1 env2),
    (parseInt_with_env p env1 env2), (to_string_with_env p env1 env2).
  cbn [env with_env]. cbv beta iota delta [String.append] in *.
  repeat match goal with H : env1 !! _ = env2 !! _ |- _ => rewrite H; clear H end.
  reflexivity.
Qed.

(** ** Witnesses of the further properties *)

Lemma prepareDatabaseFromEnvs_identity_witness :
  exists d g',
    Sample.prepare "RI_REDIS_HOST1" 0%nat = (Ok (Some d), g') /\
    g' = 0%nat /\
    prop d "id" = VStr "1" /\
    prop d "host" = VStr "host1" /\
    Sample.validate d = Ok tt.
Proof.
  destruct (observe_prepared_inv (fun _ => tt)
              (Sample.prepare "RI_REDIS_HOST1" 0%nat) tt)
    as (d & g' & Hrun & _); [vm_compute; reflexivity|].
  exists d, g'. split; [exact Hrun|].
  exact (@prepareDatabaseFromEnvs_identity Sample.platform
           "RI_REDIS_HOST1" 0%nat g' d Hrun).
Defined.

Lemma prepareDatabaseFromEnvs_db_witness :
  exists d g',
    Edge.prepare "RI_REDIS_HOST0" 0%nat = (Ok (Some d), g') /\
    prop d "db" = VNum 3.
Proof.
  destruct (observe_prepared_inv (fun _ => tt)
              (Edge.prepare "RI_REDIS_HOST0" 0%nat) tt)
    as (d & g' & Hrun & _); [vm_compute; reflexivity|].
  exists d, g'. split; [exact Hrun|].
  exact (@prepareDatabaseFromEnvs_db Edge.platform "RI_REDIS_HOST0" 0%nat g' d Hrun).
Defined.

Lemma prepareDatabaseFromEnvs_name_credentials_witness :
  exists d g',
    Edge.prepare "RI_REDIS_HOST0" 0%nat = (Ok (Some d), g') /\
    prop d "name" = VStr "primary" /\
    prop d "username" = VStr "admin" /\
    prop d "password" = VNull.
Proof.
  destruct (observe_prepared_inv (fun _ => tt)
              (Edge.prepare "RI_REDIS_HOST0" 0%nat) tt)
    as (d & g' & Hrun & _); [vm_compute; reflexivity|].
  exists d, g'. split; [exact Hrun|].
  exact (@prepareDatabaseFromEnvs_name_credentials Edge.platform
           "RI_REDIS_HOST0" 0%nat g' d Hrun).
Defined.

Lemma prepareDatabaseFromEnvs_certificates_witness :
  exists d g' caCert,
    Sample.prepare "RI_REDIS_HOST1" 0%nat = (Ok (Some d), g') /\
    prop d "caCert" = VObj caCert /\
    prop caCert "certificate" = VStr "INLINE CA" /\
    prop caCert "id" = prop d "id" /\
    prop caCert "name" =
      VStr (@to_string Sample.platform (prop d "id") +:+ "_"
              +:+ @to_string Sample.platform (prop d "name")) /\
    prop caCert "isPreSetup" = VBool true.
Proof.
  destruct (observe_prepared_inv (fun _ => tt)
              (Sample.prepare "RI_REDIS_HOST1" 0%nat) tt)
    as (d & g' & Hrun & _); [vm_compute; reflexivity|].
  destruct (@prepareDatabaseFromEnvs_certificates Sample.platform
              "RI_REDIS_HOST1" 0%nat g' d Hrun) as [Hca Hstamp].
  match type of Hca with
  | (if ?b then _ else _) =>
      assert (b = true) as Hb by (vm_compute; reflexivity); rewrite Hb in Hca
  end.
  destruct Hca as (caCert & Hattached & Hcertificate).
  exists d, g', caCert. split; [exact Hrun|]. split; [exact Hattached|].
  split; [rewrite Hcertificate; vm_compute; reflexivity|].
  exact (Hstamp "caCert" caCert (or_introl eq_refl) Hattached).
Defined.

Lemma prepareDatabaseFromEnvs_same_id_witness :
  exists d1 d2 g1 g2,
    Edge.prepare "RI_REDIS_HOST" 0%nat = (Ok (Some d1), g1) /\
    Edge.prepare "RI_REDIS_HOST0" 0%nat = (Ok (Some d2), g2) /\
    prop d1 "id" = prop d2 "id".
Proof.
  destruct (observe_prepared_inv (fun _ => tt)
              (Edge.prepare "RI_REDIS_HOST" 0%nat) tt)
    as (d1 & g1 & Hrun1 & _); [vm_compute; reflexivity|].
  destruct (observe_prepared_inv (fun _ => tt)
              (Edge.prepare "RI_REDIS_HOST0" 0%nat) tt)
    as (d2 & g2 & Hrun2 & _); [vm_compute; reflexivity|].
  exists d1, d2, g1, g2. split; [exact Hrun1|]. split; [exact Hrun2|].
  apply (@prepareDatabaseFromEnvs_same_id Edge.platform
           "RI_REDIS_HOST" "RI_REDIS_HOST0" 0%nat g1 0%nat g2 d1 d2
           eq_refl eq_refl Hrun1 Hrun2).
  right. left. by split.
Defined.

Lemma discoverEnvDatabasesToAdd_origin_witness :
  exists databases g' d,
    Sample.discoverEnv 0%nat = (Ok databases, g') /\
    d ∈ databases /\
    g' = 0%nat /\
    Sample.validate d = Ok tt /\
    prop d "connectionType" = VStr "NOT CONNECTED" /\
    prop d "isPreSetup" = VBool true /\
    exists hostEnv value,
      String.prefix "RI_REDIS_HOST" hostEnv = true /\
      Sample.env !! hostEnv = Some value /\
      value <> "" /\
      prop d "host" = VStr value.
Proof.
  destruct (observe_inv (fun l : list obj => length l) (Sample.discoverEnv 0%nat) 2%nat)
    as (databases & g' & Hrun & Hlength); [vm_compute; reflexivity|].
  destruct databases as [|d rest]; [discriminate Hlength|].
  exists (d :: rest), g', d. split; [exact Hrun|].
  assert (d ∈ d :: rest) as Hd by apply list_elem_of_here.
  split; [exact Hd|].
  exact (@discoverEnvDatabasesToAdd_origin Sample.platform 0%nat g' (d :: rest) d
           Hrun Hd).
Defined.


Lemma populateDefaultValues_keeps_supplied_witness :
  "port" ∈ supplied_names /\
  prop Edge.nulled "port" = VNull /\
  exists out g',
    Sample.populate Edge.nulled 0%nat = (Ok out, g') /\
    prop out "port" = prop Edge.nulled "port" /\
    ("port" = "id" -> g' = 0%nat).
Proof.
  assert ("port" ∈ supplied_names) as Hin.
  { unfold supplied_names. do 2 apply list_elem_of_further. apply list_elem_of_here. }
  split; [exact Hin|]. split; [reflexivity|].
  apply (@populateDefaultValues_keeps_supplied Sample.platform Edge.nulled 0%nat
           "port" Hin).
  discriminate.
Defined.

Lemma prepareDatabaseFromEnvs_normal_witness :
  exists d g',
    Sample.prepare "RI_REDIS_HOST1" 0%nat = (Ok (Some d), g') /\
    Sample.populate d g' = (Ok d, g').
Proof.
  destruct (observe_prepared_inv (fun _ => tt)
              (Sample.prepare "RI_REDIS_HOST1" 0%nat) tt)
    as (d & g' & Hrun & _); [vm_compute; reflexivity|].
  exists d, g'. split; [exact Hrun|].
  exact (@prepareDatabaseFromEnvs_normal Sample.platform
           "RI_REDIS_HOST1" 0%nat g' d Hrun).
Defined.

Lemma prepareDatabaseFromEnvs_blank_inline_ca_witness :
  @setting Edge.platform "RI_REDIS_TLS_CA_BASE64" = Some " " /\
  Sample.decode " " = Ok "" /\
  @setting Edge.platform "RI_REDIS_TLS_CA_PATH" = Some "/secrets/client.crt" /\
  Sample.readFile "/secrets/client.crt" = Ok "CERTIFICATE" /\
  exists d g',
    Edge.prepare "RI_REDIS_HOST" 0%nat = (Ok (Some d), g') /\
    prop d "caCert" = VNull.
Proof.
  split; [vm_compute; reflexivity|].
  split; [vm_compute; reflexivity|].
  split; [vm_compute; reflexivity|].
  split; [vm_compute; reflexivity|].
  destruct (observe_prepared_inv (fun _ => tt)
              (Edge.prepare "RI_REDIS_HOST" 0%nat) tt)
    as (d & g' & Hrun & _); [vm_compute; reflexivity|].
  exists d, g'. split; [exact Hrun|].
  apply (@prepareDatabaseFromEnvs_blank_inline_ca Edge.platform
           "RI_REDIS_HOST" " " 0%nat g' d Hrun);
    vm_compute; reflexivity.
Defined.

Lemma getCertificateData_empty_inline_witness :
  Edge.env !! "RI_REDIS_TLS_CA_BASE640" = Some "" /\
  Edge.certificate "RI_REDIS_TLS_CA" "0" 0%nat = (Ok (VStr "PRIVATE KEY"), 0%nat).
Proof.
  split; [vm_compute; reflexivity|].
  etransitivity.
  - apply (@getCertificateData_empty_inline Edge.platform "RI_REDIS_TLS_CA" "0" 0%nat).
    vm_compute. reflexivity.
  - vm_compute. reflexivity.
Defined.

Lemma discoverFileDatabasesToAdd_degrades_witness :
  Sample.pathExists "/etc/nothing.json" = false /\
  Sample.discoverFile "/etc/nothing.json" 0%nat = (Ok [], 0%nat).
Proof.
  split; [vm_compute; reflexivity|].
  apply (@discoverFileDatabasesToAdd_degrades Sample.platform "/etc/nothing.json" 0%nat).
  left. vm_compute. reflexivity.
Defined.

Lemma discoverFileDatabasesToAdd_origin_witness :
  exists databases g' d,
    Sample.discoverFile "/etc/databases.json" 0%nat = (Ok databases, g') /\
    d ∈ databases /\
    Sample.validate d = Ok tt /\
    prop d "connectionType" = VStr "NOT CONNECTED" /\
    prop d "isPreSetup" = VBool true /\
    exists text elements i e,
      Sample.pathExists "/etc/databases.json" = true /\
      Sample.readFile "/etc/databases.json" = Ok text /\
      Sample.parse text = Ok (VArr elements) /\
      elements !! i = Some e /\
      e <> VNull /\ e <> VUndefined /\
      (exists g1,
         Sample.populate (ownProps e)
           (@generator_at Sample.platform elements i 0%nat) = (Ok d, g1)) /\
      prop d "host" = prop (ownProps e) "host" /\
      forall k, k ∉ written_names -> d !! k = ownProps e !! k.
Proof.
  destruct (observe_inv (fun l : list obj => length l)
              (Sample.discoverFile "/etc/databases.json" 0%nat) 1%nat)
    as (databases & g' & Hrun & Hlength); [vm_compute; reflexivity|].
  destruct databases as [|d rest]; [discriminate Hlength|].
  exists (d :: rest), g', d. split; [exact Hrun|].
  assert (d ∈ d :: rest) as Hd by apply list_elem_of_here.
  split; [exact Hd|].
  exact (@discoverFileDatabasesToAdd_origin Sample.platform
           "/etc/databases.json" 0%nat g' (d :: rest) d Hrun Hd).
Defined.

Lemma prepareDatabaseFromEnvs_own_variables_witness :
  (forall k, k ∈ variables_of "RI_REDIS_HOST1" -> Sample.env !! k = Edge.elsewhere !! k) /\
  Sample.env !! "HOME" <> Edge.elsewhere !! "HOME" /\
  Sample.prepare "RI_REDIS_HOST1" 0%nat =
  @prepareDatabaseFromEnvs (with_env Sample.platform Edge.elsewhere)
    "RI_REDIS_HOST1" 0%nat.
Proof.
  assert (forall k, k ∈ variables_of "RI_REDIS_HOST1" ->
                    Sample.env !! k = Edge.elsewhere !! k) as Hagree.
  { intros k Hk. unfold variables_of in Hk. cbv zeta in Hk.
    repeat (apply elem_of_cons in Hk as [-> | Hk]; [vm_compute; reflexivity|]).
    by apply elem_of_nil in Hk. }
  split; [exact Hagree|].
  split; [vm_compute; discriminate|].
  exact (prepareDatabaseFromEnvs_own_variables Sample.platform Sample.env
           Edge.elsewhere "RI_REDIS_HOST1" 0%nat Hagree).
Defined.

Lemma populateDefaultValues_generates_id_witness :
  prop Sample.host_only "id" = VUndefined /\
  exists out,
    Sample.populate Sample.host_only 0%nat = (Ok out, 1%nat) /\
    prop out "id" = VStr "generated-0".
Proof.
  split; [reflexivity|].
  destruct (@populateDefaultValues_generates_id Sample.platform Sample.host_only 0%nat
              eq_refl) as (out & Hrun & Hid).
  exists out. split.
  - etransitivity; [exact Hrun|]. f_equal.
  - rewrite Hid. vm_compute. reflexivity.
Defined.

Lemma populateDefaultValues_absent_certificate_witness :
  prop Sample.host_only "caCert" = VUndefined /\
  exists out g',
    Sample.populate Sample.host_only 0%nat = (Ok out, g') /\
    prop out "caCert" = VNull.
Proof.
  split; [reflexivity|].
  exact (@populateDefaultValues_absent_certificate Sample.platform Sample.host_only
           0%nat "caCert" (or_introl eq_refl) (or_introl eq_refl)).
Defined.

Lemma prepareDatabaseFromEnvs_port_nonzero_witness :
  exists d g' x,
    Sample.prepare "RI_REDIS_HOST1" 0%nat = (Ok (Some d), g') /\
    x <> Finite 0 /\ x <> NotANumber /\ prop d "port" = VNumber x.
Proof.
  destruct (observe_prepared_inv (fun _ => tt)
              (Sample.prepare "RI_REDIS_HOST1" 0%nat) tt)
    as (d & g' & Hrun & _); [vm_compute; reflexivity|].
  destruct (@prepareDatabaseFromEnvs_port_nonzero Sample.platform
              "RI_REDIS_HOST1" 0%nat g' d Hrun) as (x & Hzero & Hnan & Hport).
  exists d, g', x. split; [exact Hrun|].
  split; [exact Hzero|]. split; [exact Hnan | exact Hport].
Defined.
